(** * plotly-panel: the message translator, the latest-message selector and
      the layout merge of the Plotly panel

    The development embeds the two panel components of the repository (the
    [plotly.Plot] panel and the [std_msgs/String] panel), the message
    translator [ParsePlotlyMessage] of [messages.ts], and the parts of the
    JavaScript runtime they call ([JSON.parse], [Array.isArray], property
    assignment, exceptions), then states and proves the properties of the
    specification about them. *)

From Stdlib Require Import String Ascii List ZArith NArith Bool Arith Lia.
Import ListNotations.

Local Open Scope string_scope.
Local Open Scope list_scope.

Set Warnings "-register-all".

(** ** JavaScript values *)

Module JS.

(** A decoded string is a sequence of UTF-16 code units, so that the
    [\uXXXX] escapes of JSON have a value. *)
Definition CodeUnits := list N.

Definition units (s : string) : CodeUnits :=
  map N_of_ascii (list_ascii_of_string s).

Fixpoint units_eqb (a b : CodeUnits) : bool :=
  match a, b with
  | [], [] => true
  | x :: a', y :: b' => N.eqb x y && units_eqb a' b'
  | _, _ => false
  end.

(** The values the panel handles.  A number is kept as the lexeme it was read
    from (its IEEE double is a function of the lexeme).  An array carries, next
    to its elements, the named properties that were assigned to it; an object
    is its own properties in insertion order. *)
Inductive Value : Type :=
| Undefined
| Null
| Boolean (b : bool)
| Number (lexeme : string)
| Str (s : CodeUnits)
| Array (elements : list Value) (props : list (CodeUnits * Value))
| Object (props : list (CodeUnits * Value)).

Definition Props := list (CodeUnits * Value).

(** [o[k]]: the value of an own property, [undefined] when there is none. *)
Fixpoint get (o : Props) (k : CodeUnits) : Value :=
  match o with
  | [] => Undefined
  | (k', v) :: o' => if units_eqb k' k then v else get o' k
  end.

(** [o[k] = v]: overwrite in place, or append a new property. *)
Fixpoint set (o : Props) (k : CodeUnits) (v : Value) : Props :=
  match o with
  | [] => [(k, v)]
  | (k', v') :: o' =>
      if units_eqb k' k then (k, v) :: o' else (k', v') :: set o' k v
  end.

(** [Array.isArray]. *)
Definition isArray (v : Value) : bool :=
  match v with
  | Array _ _ => true
  | _ => false
  end.

(** The exceptions that occur: [SyntaxError] is thrown by [JSON.parse],
    [TypeError] by the runtime, [Error] by [throw new Error(...)]. *)
Inductive Exception : Type :=
| SyntaxError (message : string)
| TypeError (message : string)
| Error (message : string).

Definition message (e : Exception) : string :=
  match e with
  | SyntaxError m | TypeError m | Error m => m
  end.

(** The completion of an expression: a value or a thrown exception. *)
Inductive Completion (A : Type) : Type :=
| Return (a : A)
| Throw (e : Exception).

Arguments Return {A} a.
Arguments Throw {A} e.

End JS.

(** ** [JSON.parse]

    A reference implementation of the JSON grammar (ECMA-404) over the
    characters of the text.  The texts of the model are 8-bit strings. *)

Module JSON.

Import JS.

Local Open Scope char_scope.

Definition is_ws (c : ascii) : bool :=
  Ascii.eqb c " " || Ascii.eqb c "009" || Ascii.eqb c "010" || Ascii.eqb c "013".

Fixpoint skip_ws (s : list ascii) : list ascii :=
  match s with
  | c :: s' => if is_ws c then skip_ws s' else s
  | [] => []
  end.

Fixpoint strip_prefix (p s : list ascii) : option (list ascii) :=
  match p, s with
  | [], _ => Some s
  | a :: p', b :: s' => if Ascii.eqb a b then strip_prefix p' s' else None
  | _ :: _, [] => None
  end.

Definition is_digit (c : ascii) : bool :=
  (N.leb 48 (N_of_ascii c) && N.leb (N_of_ascii c) 57)%N.

Fixpoint span_digits (s : list ascii) : list ascii * list ascii :=
  match s with
  | c :: s' =>
      if is_digit c then let (ds, r) := span_digits s' in (c :: ds, r)
      else ([], s)
  | [] => ([], [])
  end.

(** int: [0] or a non-zero digit followed by digits. *)
Definition lex_int (s : list ascii) : option (list ascii * list ascii) :=
  match s with
  | c :: r =>
      if Ascii.eqb c "0" then Some ([c], r)
      else if is_digit c then let (ds, r') := span_digits r in Some (c :: ds, r')
      else None
  | [] => None
  end.

(** frac: nothing, or [.] and at least one digit. *)
Definition lex_frac (s : list ascii) : option (list ascii * list ascii) :=
  match s with
  | c :: r =>
      if Ascii.eqb c "." then
        match span_digits r with
        | ([], _) => None
        | (ds, r') => Some (c :: ds, r')
        end
      else Some ([], s)
  | [] => Some ([], [])
  end.

(** exp: nothing, or [e]/[E], an optional sign and at least one digit. *)
Definition lex_exp (s : list ascii) : option (list ascii * list ascii) :=
  match s with
  | c :: r =>
      if Ascii.eqb c "e" || Ascii.eqb c "E" then
        let (sign, r1) :=
          match r with
          | d :: r1 =>
              if Ascii.eqb d "+" || Ascii.eqb d "-" then ([d], r1) else ([], r)
          | [] => ([], r)
          end in
        match span_digits r1 with
        | ([], _) => None
        | (ds, r2) => Some (c :: sign ++ ds, r2)
        end
      else Some ([], s)
  | [] => Some ([], [])
  end.

Definition lex_number (s : list ascii) : option (string * list ascii) :=
  let (sign, r0) :=
    match s with
    | c :: r => if Ascii.eqb c "-" then ([c], r) else ([], s)
    | [] => ([], s)
    end in
  match lex_int r0 with
  | None => None
  | Some (i, r1) =>
      match lex_frac r1 with
      | None => None
      | Some (f, r2) =>
          match lex_exp r2 with
          | None => None
          | Some (e, r3) =>
              Some (string_of_list_ascii (sign ++ i ++ f ++ e), r3)
          end
      end
  end.

Definition hex_digit (c : ascii) : option N :=
  let n := N_of_ascii c in
  (if N.leb 48 n && N.leb n 57 then Some (n - 48)
   else if N.leb 65 n && N.leb n 70 then Some (n - 55)
   else if N.leb 97 n && N.leb n 102 then Some (n - 87)
   else None)%N.

Definition hex4 (a b c d : ascii) : option N :=
  match hex_digit a, hex_digit b, hex_digit c, hex_digit d with
  | Some x, Some y, Some z, Some w => Some (((x * 16 + y) * 16 + z) * 16 + w)%N
  | _, _, _, _ => None
  end.

(** The code unit of a one-letter escape. *)
Definition escape (c : ascii) : option N :=
  if Ascii.eqb c "034" then Some 34%N
  else if Ascii.eqb c "\" then Some 92%N
  else if Ascii.eqb c "/" then Some 47%N
  else if Ascii.eqb c "b" then Some 8%N
  else if Ascii.eqb c "f" then Some 12%N
  else if Ascii.eqb c "n" then Some 10%N
  else if Ascii.eqb c "r" then Some 13%N
  else if Ascii.eqb c "t" then Some 9%N
  else None.

Definition push (n : N) (r : option (CodeUnits * list ascii)) :
  option (CodeUnits * list ascii) :=
  match r with
  | Some (u, rest) => Some (n :: u, rest)
  | None => None
  end.

(** The characters of a string after its opening quote, up to and including
    the closing quote.  Control characters are refused. *)
Fixpoint lex_string (s : list ascii) : option (CodeUnits * list ascii) :=
  match s with
  | [] => None
  | c :: r =>
      if Ascii.eqb c "034" then Some ([], r)
      else if Ascii.eqb c "\" then
        match r with
        | [] => None
        | e :: r1 =>
            if Ascii.eqb e "u" then
              match r1 with
              | a :: b :: c' :: d :: r2 =>
                  match hex4 a b c' d with
                  | Some n => push n (lex_string r2)
                  | None => None
                  end
              | _ => None
              end
            else
              match escape e with
              | Some n => push n (lex_string r1)
              | None => None
              end
        end
      else if N.ltb (N_of_ascii c) 32 then None
      else push (N_of_ascii c) (lex_string r)
  end.

Inductive Parse : Type :=
| Parsed (v : Value) (rest : list ascii)
| Unexpected
| Exhausted.

Definition keyword (c : ascii) (r : list ascii) : Parse :=
  if Ascii.eqb c "n" then
    match strip_prefix (list_ascii_of_string "ull") r with
    | Some r' => Parsed Null r'
    | None => Unexpected
    end
  else if Ascii.eqb c "t" then
    match strip_prefix (list_ascii_of_string "rue") r with
    | Some r' => Parsed (Boolean true) r'
    | None => Unexpected
    end
  else if Ascii.eqb c "f" then
    match strip_prefix (list_ascii_of_string "alse") r with
    | Some r' => Parsed (Boolean false) r'
    | None => Unexpected
    end
  else
    match lex_number (c :: r) with
    | Some (n, r') => Parsed (Number n) r'
    | None => Unexpected
    end.

(** value, elements and members of the grammar.  Every call that descends
    consumes fuel; [JSON_parse] below supplies enough of it. *)
Fixpoint parse_value (fuel : nat) (s : list ascii) : Parse :=
  match fuel with
  | O => Exhausted
  | S fuel =>
      match skip_ws s with
      | [] => Unexpected
      | c :: r =>
          if Ascii.eqb c "034" then
            match lex_string r with
            | Some (u, r') => Parsed (Str u) r'
            | None => Unexpected
            end
          else if Ascii.eqb c "[" then
            match skip_ws r with
            | d :: r' =>
                if Ascii.eqb d "]" then Parsed (Array [] []) r'
                else parse_elements fuel r []
            | [] => Unexpected
            end
          else if Ascii.eqb c "{" then
            match skip_ws r with
            | d :: r' =>
                if Ascii.eqb d "}" then Parsed (Object []) r'
                else parse_members fuel r []
            | [] => Unexpected
            end
          else keyword c r
      end
  end
with parse_elements (fuel : nat) (s : list ascii) (acc : list Value) : Parse :=
  match fuel with
  | O => Exhausted
  | S fuel =>
      match parse_value fuel s with
      | Parsed v r =>
          match skip_ws r with
          | d :: r' =>
              if Ascii.eqb d "," then parse_elements fuel r' (acc ++ [v])
              else if Ascii.eqb d "]" then Parsed (Array (acc ++ [v]) []) r'
              else Unexpected
          | [] => Unexpected
          end
      | Unexpected => Unexpected
      | Exhausted => Exhausted
      end
  end
with parse_members (fuel : nat) (s : list ascii) (acc : Props) : Parse :=
  match fuel with
  | O => Exhausted
  | S fuel =>
      match skip_ws s with
      | q :: r =>
          if Ascii.eqb q "034" then
            match lex_string r with
            | Some (k, r1) =>
                match skip_ws r1 with
                | c :: r2 =>
                    if Ascii.eqb c ":" then
                      match parse_value fuel r2 with
                      | Parsed v r3 =>
                          match skip_ws r3 with
                          | d :: r4 =>
                              if Ascii.eqb d "," then
                                parse_members fuel r4 (set acc k v)
                              else if Ascii.eqb d "}" then
                                Parsed (Object (set acc k v)) r4
                              else Unexpected
                          | [] => Unexpected
                          end
                      | Unexpected => Unexpected
                      | Exhausted => Exhausted
                      end
                    else Unexpected
                | [] => Unexpected
                end
            | None => Unexpected
            end
          else Unexpected
      | [] => Unexpected
      end
  end.

(** The fuel [JSON_parse] supplies for a text of [n] characters. *)
Definition fuel_for (n : nat) : nat := 2 * n + 1.

(** [JSON.parse(text)]: the decoded value, or a [SyntaxError] (whose message
    text is the engine's; the model keeps one text per kind of failure). *)
Definition parse (text : string) : Completion Value :=
  let s := list_ascii_of_string text in
  match parse_value (fuel_for (List.length s)) s with
  | Parsed v r =>
      match skip_ws r with
      | [] => Return v
      | _ :: _ =>
          Throw (SyntaxError "Unexpected non-whitespace character after JSON")
      end
  | Unexpected => Throw (SyntaxError "Unexpected token in JSON")
  | Exhausted => Throw (SyntaxError "Unexpected token in JSON")
  end.

End JSON.

(** ** The host's types

    [Time] and [isGreaterThan] belong to the [@foxglove/rostime] package,
    [Topic] and [MessageEvent] to [@foxglove/studio]; both packages are
    dependencies of the repository and not among its sources. *)

Module Rostime.

(** A receipt time: whole seconds and the nanoseconds within the second. *)
Record Time : Type := { sec : Z; nsec : Z }.

(** Modelled from the spec: the receipt-time ordering of the package, which
    is not among the sources.  The sign of [compare left right] orders the two
    times by their seconds, then by their nanoseconds. *)
Definition compare (left right : Time) : Z :=
  let secDiff := (sec left - sec right)%Z in
  if (secDiff =? 0)%Z then (nsec left - nsec right)%Z else secDiff.

(** Modelled from the spec: [isGreaterThan left right] of the package, which
    is not among the sources, holds when the receipt time [left] is strictly
    greater than [right]. *)
Definition isGreaterThan (left right : Time) : bool :=
  (0 <? compare left right)%Z.

End Rostime.

Module Studio.

Record Topic : Type := { name : string; schemaName : string }.

Record MessageEvent (T : Type) : Type :=
  { topic : string; receiveTime : Rostime.Time; message : T }.

Arguments topic {T} _.
Arguments receiveTime {T} _.
Arguments message {T} _.

Inductive ColorScheme : Type := light | dark.

(** A field of the settings editor, with the properties the panels give it. *)
Record SettingsTreeField : Type :=
  { input : string;
    label : string;
    help : option string;
    items : list string;
    value : option string;
    error : option string }.

End Studio.

(** ** The state of a panel and the computations of a render

    The state variables of the component ([useState]); [renderDone], a
    callback of the host, is left out.  [T] is the type of the subscribed
    messages. *)

Module Panel.

Import JS Studio.

Record State (T : Type) : Type :=
  { colorScheme : ColorScheme;
    topics : option (list Topic);
    topicName : option string;
    messages : option (list (MessageEvent T));
    latestMessage : option (MessageEvent T);
    errorMessage : option string }.

Arguments colorScheme {T} _.
Arguments topics {T} _.
Arguments topicName {T} _.
Arguments messages {T} _.
Arguments latestMessage {T} _.
Arguments errorMessage {T} _.

(** A computation of the component: it may write state variables and it
    completes with a value or with an exception.  What it wrote before
    throwing stays written.  Writes to the console are not part of the state
    and are left out. *)
Definition Render (T A : Type) : Type := State T -> Completion A * State T.

Definition ret {T A} (a : A) : Render T A := fun st => (Return a, st).

Definition throw {T A} (e : Exception) : Render T A := fun st => (Throw e, st).

Definition bind {T A B} (c : Render T A) (k : A -> Render T B) : Render T B :=
  fun st =>
    match c st with
    | (Return a, st') => k a st'
    | (Throw e, st') => (Throw e, st')
    end.

(** An expression of the runtime, evaluated inside a computation. *)
Definition eval {T A} (c : Completion A) : Render T A := fun st => (c, st).

(** [try { body } catch (err) { handler }]. *)
Definition try_catch {T A} (body : Render T A) (handler : Exception -> Render T A)
  : Render T A :=
  fun st =>
    match body st with
    | (Return a, st') => (Return a, st')
    | (Throw e, st') => handler e st'
    end.

Definition setLatestMessage {T} (m : option (MessageEvent T)) : Render T unit :=
  fun st =>
    (Return tt,
     {| colorScheme := colorScheme st; topics := topics st;
        topicName := topicName st; messages := messages st;
        latestMessage := m; errorMessage := errorMessage st |}).

Definition setErrorMessage {T} (e : option string) : Render T unit :=
  fun st =>
    (Return tt,
     {| colorScheme := colorScheme st; topics := topics st;
        topicName := topicName st; messages := messages st;
        latestMessage := latestMessage st; errorMessage := e |}).

(** The state a computation leaves. *)
Definition after {T A} (c : Render T A) (st : State T) : State T := snd (c st).

(** [set.has(x)] and [array.includes(x)] on strings. *)
Definition has (set : list string) (x : string) : bool :=
  existsb (String.eqb x) set.

Definition includes (array : list string) (x : string) : bool :=
  existsb (String.eqb x) array.

(** The truthiness of a [string | undefined]. *)
Definition truthy (s : option string) : bool :=
  match s with
  | Some s => negb (String.eqb s "")
  | None => false
  end.

(** [target[key] = v] in the strict-mode code of a module, for a [key] that
    is not an array index: the updated target, or the [TypeError] of an
    assignment to a value that is not an object. *)
Definition assign (target : Value) (key : string) (v : Value) : Completion Value :=
  match target with
  | Object props => Return (Object (set props (units key) v))
  | Array elements props => Return (Array elements (set props (units key) v))
  | Undefined | Null =>
      Throw (TypeError (String.append "Cannot set properties of undefined or null, setting " key))
  | Boolean _ | Number _ | Str _ =>
      Throw (TypeError (String.append "Cannot create a property on a primitive value, setting " key))
  end.

(** [a ?? b]. *)
Definition nullish (a b : Value) : Value :=
  match a with
  | Undefined | Null => b
  | _ => a
  end.

(** [v[key]] of a value that was built by the panel. *)
Definition field (v : Value) (key : string) : Value :=
  match v with
  | Object props | Array _ props => get props (units key)
  | _ => Undefined
  end.

End Panel.

Declare Scope render_scope.
Delimit Scope render_scope with render.
Notation "x <- c ;; k" := (Panel.bind c (fun x => k))
  (at level 61, c at next level, right associativity) : render_scope.
Notation "c ;;; k" := (Panel.bind c (fun _ => k))
  (at level 61, right associativity) : render_scope.

(** ** messages.ts *)

Module PlotlyPlot.

(** The serialized message: both fields are JSON texts. *)
Record t : Type := { data : string; layout : string }.

End PlotlyPlot.

Module PlotlyPlotParsed.

(** The parsed message.  The fields hold whatever the texts decoded to: the
    TypeScript types of the fields are casts, not checks. *)
Record t : Type := { data : JS.Value; layout : JS.Value }.

End PlotlyPlotParsed.

Module Messages.

Import JS.

Definition PlotlyPlotSchemaNames : list string :=
  ["plotly_msgs/Plot"; "plotly_msgs/msg/Plot"; "plotly.Plot"].

Definition ParsePlotlyMessage (message : PlotlyPlot.t) : Completion PlotlyPlotParsed.t :=
  match
    (if Nat.ltb 0 (String.length (PlotlyPlot.data message))
     then JSON.parse (PlotlyPlot.data message)
     else Return (Array [] []))
  with
  | Throw e => Throw e
  | Return data =>
      match
        (if Nat.ltb 0 (String.length (PlotlyPlot.layout message))
         then JSON.parse (PlotlyPlot.layout message)
         else Return (Object []))
      with
      | Throw e => Throw e
      | Return layout =>
          if negb (isArray data) then Throw (Error "Plot data must be an array")
          else Return {| PlotlyPlotParsed.data := data;
                         PlotlyPlotParsed.layout := layout |}
      end
  end.

End Messages.

(** ** PlotlyPanel.tsx: the panel of [plotly.Plot] messages *)

Module PlotlyPanel.

Import JS Studio Panel Messages.

Local Open Scope render_scope.

Section Component.

(** [DARK_TEMPLATE] of [./templates], a file that is not among the sources:
    an object, of which nothing else is assumed. *)
Variable DARK_TEMPLATE : Props.

Definition validTopicNames (topics : option (list Topic)) (topicName : option string)
  : list string :=
  match topics with
  | None => []
  | Some topics =>
      let output :=
        map name (filter (fun t => has PlotlyPlotSchemaNames (schemaName t)) topics) in
      match topicName with
      | Some n =>
          if truthy topicName && negb (includes output n) then n :: output
          else output
      | None => output
      end
  end.

(** The [topic] field the panel hands to [updatePanelSettingsEditor]. *)
Definition topicField (st : State PlotlyPlot.t) : SettingsTreeField :=
  {| input := "autocomplete";
     label := "Topic";
     help := Some "A `plotly.Plot` message topic to subscribe to";
     items := validTopicNames (topics st) (topicName st);
     value := topicName st;
     error := errorMessage st |}.

(** The effect that updates the most recent message. *)
Definition latestMessageEffect : Render PlotlyPlot.t unit :=
  fun st =>
    match topicName st with
    | None => setLatestMessage None st
    | Some _ =>
        match messages st with
        | None => ret tt st
        | Some ms =>
            if Nat.eqb (List.length ms) 0 then ret tt st
            else setLatestMessage (nth_error ms (List.length ms - 1)) st
        end
    end.

Definition plotMessage : Render PlotlyPlot.t (option PlotlyPlotParsed.t) :=
  fun st =>
    match latestMessage st with
    | None => ret None st
    | Some latest =>
        try_catch
          (parsed <- eval (ParsePlotlyMessage (message latest)) ;;
           setErrorMessage None ;;;
           ret (Some parsed))
          (fun err =>
             let msg := String.append "Failed to parse: " (JS.message err) in
             setErrorMessage (Some msg) ;;;
             ret None)
          st
    end.

(** [plotMessage?.data ?? []] *)
Definition data (plotMessage : option PlotlyPlotParsed.t) : Value :=
  match plotMessage with
  | Some p => nullish (PlotlyPlotParsed.data p) (Array [] [])
  | None => Array [] []
  end.

(** The layout handed to the widget.  [output] is the layout object of the
    parsed message itself when there is one, so the two assignments write
    into that object. *)
Definition layout (colorScheme : ColorScheme) (plotMessage : option PlotlyPlotParsed.t)
  : Completion Value :=
  let output :=
    match plotMessage with
    | Some p => nullish (PlotlyPlotParsed.layout p) (Object [])
    | None => Object []
    end in
  match assign output "autosize" (Boolean true) with
  | Throw e => Throw e
  | Return output =>
      assign output "template"
        (match colorScheme with
         | dark => Object DARK_TEMPLATE
         | light => Undefined
         end)
  end.

End Component.

End PlotlyPanel.

(** ** The panel of [std_msgs/String] messages *)

Module StringMessage.

Record t : Type := { data : string }.

End StringMessage.

Module StringPanel.

Import JS Studio Panel.

Local Open Scope render_scope.

Section Component.

Variable DARK_TEMPLATE : Props.

Definition VALID_DATATYPES : list string := ["std_msgs/String"; "std_msgs.String"].

Definition validTopicNames (topics : option (list Topic)) (topicName : option string)
  : list string :=
  match topics with
  | None => []
  | Some topics =>
      let output :=
        map name (filter (fun t => has VALID_DATATYPES (schemaName t)) topics) in
      match topicName with
      | Some n =>
          if truthy topicName && negb (includes output n) then n :: output
          else output
      | None => output
      end
  end.

(** The [topic] field the panel hands to [updatePanelSettingsEditor]. *)
Definition topicField (st : State StringMessage.t) : SettingsTreeField :=
  {| input := "autocomplete";
     label := "Topic (JSON)";
     help := None;
     items := validTopicNames (topics st) (topicName st);
     value := topicName st;
     error := errorMessage st |}.

(** The effect that updates the most recent message. *)
Definition latestMessageEffect : Render StringMessage.t unit :=
  fun st =>
    match topicName st with
    | None => setLatestMessage None st
    | Some _ =>
        match messages st with
        | None => ret tt st
        | Some ms =>
            if Nat.eqb (List.length ms) 0 then ret tt st
            else
              match nth_error ms (List.length ms - 1) with
              | None =>
                  throw (TypeError "Cannot read properties of undefined (reading 'receiveTime')") st
              | Some curLatest =>
                  if match latestMessage st with
                     | None => true
                     | Some latest =>
                         Rostime.isGreaterThan (receiveTime curLatest) (receiveTime latest)
                     end
                  then setLatestMessage (nth_error ms (List.length ms - 1)) st
                  else ret tt st
              end
        end
    end.

Definition plotData : Render StringMessage.t Value :=
  fun st =>
    match latestMessage st with
    | None => ret (Array [] []) st
    | Some latest =>
        try_catch
          (json <- eval (JSON.parse (StringMessage.data (message latest))) ;;
           if negb (isArray json) then
             let msg := "JSON is not an array" in
             setErrorMessage (Some msg) ;;;
             ret (Array [] [])
           else
             setErrorMessage None ;;;
             ret json)
          (fun err =>
             let msg := String.append "Failed to parse JSON: " (JS.message err) in
             setErrorMessage (Some msg) ;;;
             ret (Array [] []))
          st
    end.

Definition plotLayout (colorScheme : ColorScheme) : Value :=
  Object
    [(units "autosize", Boolean true);
     (units "template",
      match colorScheme with
      | dark => Object DARK_TEMPLATE
      | light => Undefined
      end)].

End Component.

End StringPanel.

(** ** The vocabulary of the specification *)

Module Spec.

Import JS Studio Panel.

(** A text is syntactically valid JSON that decodes to [v]. *)
Definition decodes (text : string) (v : Value) : Prop :=
  JSON.parse text = Return v.

(** A non-empty text that is not syntactically valid JSON. *)
Definition malformed (text : string) : Prop :=
  text <> "" /\ exists e, JSON.parse text = Throw e.

(** The two kinds of failure of the translator. *)
Definition ParseError (e : Exception) : Prop := exists m, e = SyntaxError m.

Definition ValidationError : Exception := Error "Plot data must be an array".

(** Receipt time [a] is strictly greater than receipt time [b]. *)
Definition later (a b : Rostime.Time) : Prop :=
  (Rostime.sec b < Rostime.sec a \/
   (Rostime.sec a = Rostime.sec b /\ Rostime.nsec b < Rostime.nsec a))%Z.

(** The selection a selector leaves. *)
Definition selection {T} (selector : Render T unit) (st : State T)
  : option (MessageEvent T) :=
  latestMessage (after selector st).

(** The names of the topics of a catalog whose schema is one of [schemas],
    in the order of the catalog. *)
Definition names_with_schema (schemas : list string) (topics : list Topic)
  : list string :=
  map name (filter (fun t => has schemas (schemaName t)) topics).

(** The template a color scheme calls for. *)
Definition template_for (DARK_TEMPLATE : Props) (colorScheme : ColorScheme) : Value :=
  match colorScheme with
  | dark => Object DARK_TEMPLATE
  | light => Undefined
  end.

(** Booleans, numbers and strings: the values that are not objects and on
    which a property cannot be set. *)
Definition primitive (v : Value) : bool :=
  match v with
  | Boolean _ | Number _ | Str _ => true
  | _ => false
  end.

(** The layout of the author: [plotMessage?.layout]. *)
Definition author_layout (plotMessage : option PlotlyPlotParsed.t) : Value :=
  match plotMessage with
  | Some p => PlotlyPlotParsed.layout p
  | None => Undefined
  end.

End Spec.

(** ** Concrete inputs *)

Module Examples.

Import JS Studio Panel.

Definition quoted (s : string) : string :=
  String "034" (String.append s (String "034" EmptyString)).

Definition at_time (s : Z) (text : string) : MessageEvent PlotlyPlot.t :=
  {| topic := "/plot";
     receiveTime := {| Rostime.sec := s; Rostime.nsec := 0 |};
     message := {| PlotlyPlot.data := text; PlotlyPlot.layout := "" |} |}.

Definition string_at_time (s : Z) (text : string) : MessageEvent StringMessage.t :=
  {| topic := "/plot";
     receiveTime := {| Rostime.sec := s; Rostime.nsec := 0 |};
     message := {| StringMessage.data := text |} |}.

Definition state {T} (name : option string) (frame : list (MessageEvent T))
  (previous : option (MessageEvent T)) : State T :=
  {| colorScheme := light; topics := None; topicName := name;
     messages := Some frame; latestMessage := previous; errorMessage := None |}.

(** A message whose layout carries a template of its author. *)
Definition templated : PlotlyPlot.t :=
  {| PlotlyPlot.data := "[]";
     PlotlyPlot.layout := String.append "{" (String.append (quoted "template") ":{}}") |}.

Definition catalog : list Topic :=
  [ {| name := "/a"; schemaName := "plotly.Plot" |};
    {| name := "/b"; schemaName := "std_msgs/String" |} ].

End Examples.

(** ** The rest of the two components

    The render handler, the settings action handler, the saved state and the
    subscriptions are the same text in both panels; they are embedded once,
    for any type [T] of messages. *)

Module RenderState.

(** The fields of the host's render state that the panels watch. *)
Record t (T : Type) : Type :=
  { colorScheme : option Studio.ColorScheme;
    topics : option (list Studio.Topic);
    currentFrame : option (list (Studio.MessageEvent T)) }.

Arguments colorScheme {T} _.
Arguments topics {T} _.
Arguments currentFrame {T} _.

End RenderState.

Module SettingsTreeAction.

(** An action of the settings editor: its kind, and the path and the value
    of its payload ([undefined] when the payload has no value). *)
Record t : Type :=
  { action : string;
    path : list string;
    value : JS.Value }.

End SettingsTreeAction.

Module Lifecycle.

Import JS Studio Panel.

Local Open Scope render_scope.

(** The text of a string value.  The texts of the model are 8-bit strings,
    so a code unit stands for the character of the same number. *)
Definition text (u : CodeUnits) : string :=
  string_of_list_ascii (map ascii_of_N u).

Definition setColorScheme {T} (c : ColorScheme) : Render T unit :=
  fun st =>
    (Return tt,
     {| colorScheme := c; topics := topics st;
        topicName := topicName st; messages := messages st;
        latestMessage := latestMessage st; errorMessage := errorMessage st |}).

Definition setTopics {T} (ts : option (list Topic)) : Render T unit :=
  fun st =>
    (Return tt,
     {| colorScheme := colorScheme st; topics := ts;
        topicName := topicName st; messages := messages st;
        latestMessage := latestMessage st; errorMessage := errorMessage st |}).

Definition setTopicName {T} (n : option string) : Render T unit :=
  fun st =>
    (Return tt,
     {| colorScheme := colorScheme st; topics := topics st;
        topicName := n; messages := messages st;
        latestMessage := latestMessage st; errorMessage := errorMessage st |}).

Definition setMessages {T} (ms : option (list (MessageEvent T))) : Render T unit :=
  fun st =>
    (Return tt,
     {| colorScheme := colorScheme st; topics := topics st;
        topicName := topicName st; messages := ms;
        latestMessage := latestMessage st; errorMessage := errorMessage st |}).

(** [context.onRender]: the handler the host calls once per frame. *)
Definition onRender {T} (renderState : RenderState.t T) : Render T unit :=
  setColorScheme
    (match RenderState.colorScheme renderState with
     | Some c => c
     | None => light
     end) ;;;
  setTopics (RenderState.topics renderState) ;;;
  setMessages (RenderState.currentFrame renderState).

(** The [actionHandler] of the settings editor. *)
Definition actionHandler {T} (action : SettingsTreeAction.t) : Render T unit :=
  let path := String.concat "." (SettingsTreeAction.path action) in
  if negb (String.eqb (SettingsTreeAction.action action) "update") then ret tt
  else if String.eqb path "data.topic" then
    let topic :=
      match SettingsTreeAction.value action with
      | Str u => Some (text u)
      | _ => None
      end in
    setTopicName topic
  else ret tt.

(** The object the panel hands to [context.saveState]. *)
Definition savedState (topicName : option string) : Value :=
  Object
    [(units "data",
      Object
        [(units "topic",
          match topicName with
          | Some n => Str (units n)
          | None => Undefined
          end)])].

(** [getInitialTopic], on the [initialState] of the context. *)
Definition getInitialTopic (initialState : Value) : option string :=
  let initialStateTopic := field (field initialState "data") "topic" in
  match initialStateTopic with
  | Str u => Some (text u)
  | _ => None
  end.

(** The state variables of a panel when it is mounted. *)
Definition initialPanelState {T} (initialState : Value) : State T :=
  {| colorScheme := light;
     topics := None;
     topicName := getInitialTopic initialState;
     messages := None;
     latestMessage := None;
     errorMessage := None |}.

(** The list the subscription effect hands to [context.subscribe]. *)
Definition subscriptions (topicName : option string) (topics : option (list Topic))
  : list string :=
  match topicName with
  | Some n =>
      if truthy topicName &&
         match topics with
         | Some ts =>
             match find (fun t => String.eqb (name t) n) ts with
             | Some _ => true
             | None => false
             end
         | None => false
         end
      then [n]
      else []
  | None => []
  end.

(** A text of JSON whitespace only. *)
Definition blank (s : string) : bool :=
  forallb JSON.is_ws (list_ascii_of_string s).

End Lifecycle.

(** * Properties *)

(** ** [JSON.parse] always has enough fuel *)

Module JSONFacts.

Import JS JSON.

Lemma skip_ws_length (s : list ascii) : List.length (skip_ws s) <= List.length s.
Proof.
  induction s as [|c s IH]; simpl; [lia|].
  destruct (is_ws c); simpl; lia.
Qed.

Lemma skip_ws_cons (s r : list ascii) (c : ascii) :
  skip_ws s = c :: r -> List.length r < List.length s.
Proof.
  intros H. pose proof (skip_ws_length s) as L. rewrite H in L. simpl in L. lia.
Qed.

Lemma strip_prefix_length (p s r : list ascii) :
  strip_prefix p s = Some r -> List.length r <= List.length s.
Proof.
  revert s; induction p as [|a p IH]; intros s H; simpl in H.
  - injection H as <-. lia.
  - destruct s as [|b s]; [discriminate|].
    destruct (Ascii.eqb a b); [|discriminate].
    apply IH in H. simpl. lia.
Qed.

Lemma span_digits_length (s : list ascii) :
  List.length (snd (span_digits s)) <= List.length s.
Proof.
  induction s as [|c s IH]; simpl; [lia|].
  destruct (is_digit c); simpl; [|lia].
  destruct (span_digits s) as [ds r]; simpl in *. lia.
Qed.

Lemma lex_int_length (s i r : list ascii) :
  lex_int s = Some (i, r) -> List.length r < List.length s.
Proof.
  destruct s as [|c s]; simpl; [discriminate|].
  destruct (Ascii.eqb c "0").
  - intros [= _ <-]. lia.
  - destruct (is_digit c); [|discriminate].
    pose proof (span_digits_length s) as L.
    destruct (span_digits s) as [ds r']; simpl in L.
    intros [= _ <-]. lia.
Qed.

Lemma lex_frac_length (s f r : list ascii) :
  lex_frac s = Some (f, r) -> List.length r <= List.length s.
Proof.
  destruct s as [|c s]; simpl.
  - intros [= _ <-]. simpl. lia.
  - destruct (Ascii.eqb c ".").
    + pose proof (span_digits_length s) as L.
      destruct (span_digits s) as [[|d ds] r']; simpl in L; [discriminate|].
      intros [= _ <-]. lia.
    + intros [= _ <-]. simpl. lia.
Qed.

Lemma lex_exp_length (s e r : list ascii) :
  lex_exp s = Some (e, r) -> List.length r <= List.length s.
Proof.
  destruct s as [|c s]; simpl.
  - intros [= _ <-]. simpl. lia.
  - destruct (Ascii.eqb c "e" || Ascii.eqb c "E").
    + destruct s as [|d s1].
      * simpl. discriminate.
      * destruct (Ascii.eqb d "+" || Ascii.eqb d "-").
        -- pose proof (span_digits_length s1) as L.
           destruct (span_digits s1) as [[|x ds] r']; simpl in L; [discriminate|].
           intros [= _ <-]. simpl. lia.
        -- pose proof (span_digits_length (d :: s1)) as L.
           destruct (span_digits (d :: s1)) as [[|x ds] r']; simpl in L; [discriminate|].
           intros [= _ <-]. simpl. lia.
    + intros [= _ <-]. simpl. lia.
Qed.

Lemma lex_number_length (s r : list ascii) (n : string) :
  lex_number s = Some (n, r) -> List.length r < List.length s.
Proof.
  unfold lex_number.
  destruct s as [|c s].
  - simpl. discriminate.
  - destruct (Ascii.eqb c "-").
    + destruct (lex_int s) as [[i r1]|] eqn:Hi; [|discriminate].
      destruct (lex_frac r1) as [[f r2]|] eqn:Hf; [|discriminate].
      destruct (lex_exp r2) as [[e r3]|] eqn:He; [|discriminate].
      intros [= _ <-].
      apply lex_int_length in Hi. apply lex_frac_length in Hf.
      apply lex_exp_length in He. simpl. lia.
    + destruct (lex_int (c :: s)) as [[i r1]|] eqn:Hi; [|discriminate].
      destruct (lex_frac r1) as [[f r2]|] eqn:Hf; [|discriminate].
      destruct (lex_exp r2) as [[e r3]|] eqn:He; [|discriminate].
      intros [= _ <-].
      apply lex_int_length in Hi. apply lex_frac_length in Hf.
      apply lex_exp_length in He. lia.
Qed.

Lemma push_length (n : N) (o : option (CodeUnits * list ascii)) (u : CodeUnits)
  (r : list ascii) :
  push n o = Some (u, r) -> exists u', o = Some (u', r).
Proof.
  destruct o as [[u' r']|]; simpl; [|discriminate].
  intros [= _ <-]. now exists u'.
Qed.

Lemma lex_string_length (s : list ascii) :
  forall u r, lex_string s = Some (u, r) -> List.length r < List.length s.
Proof.
  remember (List.length s) as n eqn:En.
  revert s En. induction n as [n IHn] using lt_wf_ind. intros s -> u r H.
  assert (IH : forall s', List.length s' < List.length s ->
            forall u r, lex_string s' = Some (u, r) -> List.length r < List.length s')
    by (intros s' L; now apply (IHn (List.length s'))).
  clear IHn.
  destruct s as [|c s]; simpl in H; [discriminate|].
  destruct (Ascii.eqb c "034").
  { injection H as _ <-. simpl. lia. }
  destruct (Ascii.eqb c "\").
  - destruct s as [|e r1]; [discriminate|].
    destruct (Ascii.eqb e "u").
    + destruct r1 as [|a [|b [|c' [|d r2]]]]; try discriminate.
      destruct (hex4 a b c' d); [|discriminate].
      apply push_length in H as [u' H].
      apply IH in H; simpl in *; lia.
    + destruct (escape e); [|discriminate].
      apply push_length in H as [u' H].
      apply IH in H; simpl in *; lia.
  - destruct (N.ltb (N_of_ascii c) 32); [discriminate|].
    apply push_length in H as [u' H].
    apply IH in H; simpl in *; lia.
Qed.

Lemma keyword_length (c : ascii) (r r' : list ascii) (v : Value) :
  keyword c r = Parsed v r' -> List.length r' < List.length (c :: r).
Proof.
  unfold keyword.
  destruct (Ascii.eqb c "n").
  { destruct (strip_prefix _ r) as [x|] eqn:E; [|discriminate].
    intros [= _ <-]. apply strip_prefix_length in E. simpl. lia. }
  destruct (Ascii.eqb c "t").
  { destruct (strip_prefix _ r) as [x|] eqn:E; [|discriminate].
    intros [= _ <-]. apply strip_prefix_length in E. simpl. lia. }
  destruct (Ascii.eqb c "f").
  { destruct (strip_prefix _ r) as [x|] eqn:E; [|discriminate].
    intros [= _ <-]. apply strip_prefix_length in E. simpl. lia. }
  destruct (lex_number (c :: r)) as [[n x]|] eqn:E; [|discriminate].
  intros [= _ <-]. now apply lex_number_length in E.
Qed.

Lemma keyword_not_Exhausted (c : ascii) (r : list ascii) : keyword c r <> Exhausted.
Proof.
  unfold keyword.
  repeat match goal with
         | |- context [if ?b then _ else _] => destruct b
         | |- context [match ?o with Some _ => _ | None => _ end] => destruct o as [[]|]
         | |- context [match ?o with Some _ => _ | None => _ end] => destruct o
         end; discriminate.
Qed.

(** The equations of the three parsers at a successor. *)
Lemma parse_value_S (fuel : nat) (s : list ascii) :
  parse_value (S fuel) s =
  match skip_ws s with
  | [] => Unexpected
  | c :: r =>
      if Ascii.eqb c "034" then
        match lex_string r with
        | Some (u, r') => Parsed (Str u) r'
        | None => Unexpected
        end
      else if Ascii.eqb c "[" then
        match skip_ws r with
        | d :: r' =>
            if Ascii.eqb d "]" then Parsed (Array [] []) r'
            else parse_elements fuel r []
        | [] => Unexpected
        end
      else if Ascii.eqb c "{" then
        match skip_ws r with
        | d :: r' =>
            if Ascii.eqb d "}" then Parsed (Object []) r'
            else parse_members fuel r []
        | [] => Unexpected
        end
      else keyword c r
  end.
Proof. reflexivity. Qed.

Lemma parse_elements_S (fuel : nat) (s : list ascii) (acc : list Value) :
  parse_elements (S fuel) s acc =
  match parse_value fuel s with
  | Parsed v r =>
      match skip_ws r with
      | d :: r' =>
          if Ascii.eqb d "," then parse_elements fuel r' (acc ++ [v])
          else if Ascii.eqb d "]" then Parsed (Array (acc ++ [v]) []) r'
          else Unexpected
      | [] => Unexpected
      end
  | Unexpected => Unexpected
  | Exhausted => Exhausted
  end.
Proof. reflexivity. Qed.

Lemma parse_members_S (fuel : nat) (s : list ascii) (acc : Props) :
  parse_members (S fuel) s acc =
  match skip_ws s with
  | q :: r =>
      if Ascii.eqb q "034" then
        match lex_string r with
        | Some (k, r1) =>
            match skip_ws r1 with
            | c :: r2 =>
                if Ascii.eqb c ":" then
                  match parse_value fuel r2 with
                  | Parsed v r3 =>
                      match skip_ws r3 with
                      | d :: r4 =>
                          if Ascii.eqb d "," then parse_members fuel r4 (set acc k v)
                          else if Ascii.eqb d "}" then Parsed (Object (set acc k v)) r4
                          else Unexpected
                      | [] => Unexpected
                      end
                  | Unexpected => Unexpected
                  | Exhausted => Exhausted
                  end
                else Unexpected
            | [] => Unexpected
            end
        | None => Unexpected
        end
      else Unexpected
  | [] => Unexpected
  end.
Proof. reflexivity. Qed.

(** Whatever is parsed consumes at least one character. *)
Lemma parsed_consumes (fuel : nat) :
  (forall s v r, parse_value fuel s = Parsed v r -> List.length r < List.length s) /\
  (forall s acc v r,
      parse_elements fuel s acc = Parsed v r -> List.length r < List.length s) /\
  (forall s acc v r,
      parse_members fuel s acc = Parsed v r -> List.length r < List.length s).
Proof.
  induction fuel as [|fuel (IHv & IHe & IHm)].
  { repeat split; intros; discriminate. }
  repeat split.
  - intros s v r. rewrite parse_value_S.
    destruct (skip_ws s) as [|c r0] eqn:Es; [discriminate|].
    apply skip_ws_cons in Es.
    destruct (Ascii.eqb c "034").
    { destruct (lex_string r0) as [[u r']|] eqn:El; [|discriminate].
      intros [= _ <-]. apply lex_string_length in El. lia. }
    destruct (Ascii.eqb c "[").
    { destruct (skip_ws r0) as [|d r'] eqn:Er; [discriminate|].
      apply skip_ws_cons in Er.
      destruct (Ascii.eqb d "]").
      - intros [= _ <-]. lia.
      - intros H. apply IHe in H. lia. }
    destruct (Ascii.eqb c "{").
    { destruct (skip_ws r0) as [|d r'] eqn:Er; [discriminate|].
      apply skip_ws_cons in Er.
      destruct (Ascii.eqb d "}").
      - intros [= _ <-]. lia.
      - intros H. apply IHm in H. lia. }
    intros H. apply keyword_length in H. simpl in H. lia.
  - intros s acc v r. rewrite parse_elements_S.
    destruct (parse_value fuel s) as [v0 r0| |] eqn:Ev; try discriminate.
    apply IHv in Ev.
    destruct (skip_ws r0) as [|d r'] eqn:Er; [discriminate|].
    apply skip_ws_cons in Er.
    destruct (Ascii.eqb d ",").
    { intros H. apply IHe in H. lia. }
    destruct (Ascii.eqb d "]"); [|discriminate].
    intros [= _ <-]. lia.
  - intros s acc v r. rewrite parse_members_S.
    destruct (skip_ws s) as [|q r0] eqn:Es; [discriminate|].
    apply skip_ws_cons in Es.
    destruct (Ascii.eqb q "034"); [|discriminate].
    destruct (lex_string r0) as [[k r1]|] eqn:El; [|discriminate].
    apply lex_string_length in El.
    destruct (skip_ws r1) as [|c r2] eqn:E1; [discriminate|].
    apply skip_ws_cons in E1.
    destruct (Ascii.eqb c ":"); [|discriminate].
    destruct (parse_value fuel r2) as [v0 r3| |] eqn:Ev; try discriminate.
    apply IHv in Ev.
    destruct (skip_ws r3) as [|d r4] eqn:E3; [discriminate|].
    apply skip_ws_cons in E3.
    destruct (Ascii.eqb d ",").
    { intros H. apply IHm in H. lia. }
    destruct (Ascii.eqb d "}"); [|discriminate].
    intros [= _ <-]. lia.
Qed.

(** With the fuel of [fuel_for] no parser runs out. *)
Lemma fuel_suffices (fuel : nat) :
  (forall s, 2 * List.length s + 1 <= fuel -> parse_value fuel s <> Exhausted) /\
  (forall s acc, 2 * List.length s + 2 <= fuel -> parse_elements fuel s acc <> Exhausted) /\
  (forall s acc, 2 * List.length s + 2 <= fuel -> parse_members fuel s acc <> Exhausted).
Proof.
  induction fuel as [|fuel (IHv & IHe & IHm)].
  { repeat split; intros; lia. }
  repeat split.
  - intros s L. rewrite parse_value_S.
    destruct (skip_ws s) as [|c r0] eqn:Es; [discriminate|].
    apply skip_ws_cons in Es.
    destruct (Ascii.eqb c "034").
    { destruct (lex_string r0) as [[u r']|]; discriminate. }
    destruct (Ascii.eqb c "[").
    { destruct (skip_ws r0) as [|d r'] eqn:Er; [discriminate|].
      destruct (Ascii.eqb d "]"); [discriminate|].
      apply IHe. lia. }
    destruct (Ascii.eqb c "{").
    { destruct (skip_ws r0) as [|d r'] eqn:Er; [discriminate|].
      destruct (Ascii.eqb d "}"); [discriminate|].
      apply IHm. lia. }
    apply keyword_not_Exhausted.
  - intros s acc L. rewrite parse_elements_S.
    destruct (parse_value fuel s) as [v0 r0| |] eqn:Ev; try discriminate.
    + apply (proj1 (parsed_consumes fuel)) in Ev.
      destruct (skip_ws r0) as [|d r'] eqn:Er; [discriminate|].
      apply skip_ws_cons in Er.
      destruct (Ascii.eqb d ","); [apply IHe; lia|].
      destruct (Ascii.eqb d "]"); discriminate.
    + exfalso. revert Ev. apply IHv. lia.
  - intros s acc L. rewrite parse_members_S.
    destruct (skip_ws s) as [|q r0] eqn:Es; [discriminate|].
    apply skip_ws_cons in Es.
    destruct (Ascii.eqb q "034"); [|discriminate].
    destruct (lex_string r0) as [[k r1]|] eqn:El; [|discriminate].
    apply lex_string_length in El.
    destruct (skip_ws r1) as [|c r2] eqn:E1; [discriminate|].
    apply skip_ws_cons in E1.
    destruct (Ascii.eqb c ":"); [|discriminate].
    destruct (parse_value fuel r2) as [v0 r3| |] eqn:Ev; try discriminate.
    + apply (proj1 (parsed_consumes fuel)) in Ev.
      destruct (skip_ws r3) as [|d r4] eqn:E3; [discriminate|].
      apply skip_ws_cons in E3.
      destruct (Ascii.eqb d ","); [apply IHm; lia|].
      destruct (Ascii.eqb d "}"); discriminate.
    + exfalso. revert Ev. apply IHv. lia.
Qed.

(** [JSON.parse] never stops for lack of fuel: it returns a value or reports
    a syntax error of the text. *)
Lemma parse_value_fuel_for (text : string) :
  parse_value (fuel_for (List.length (list_ascii_of_string text)))
    (list_ascii_of_string text) <> Exhausted.
Proof. apply fuel_suffices. unfold fuel_for. lia. Qed.

(** The only exception of [JSON.parse] is a [SyntaxError]. *)
Lemma parse_throws_SyntaxError (text : string) (e : Exception) :
  JSON.parse text = Throw e -> exists m, e = SyntaxError m.
Proof.
  unfold JSON.parse.
  destruct (parse_value _ _) as [v r| |].
  - destruct (skip_ws r); [discriminate|]. intros [= <-]. eauto.
  - intros [= <-]. eauto.
  - intros [= <-]. eauto.
Qed.

End JSONFacts.

Section JSONExamples.

Import JS Examples.

Example parse_numbers :
  JSON.parse " [1, -2.5e-3 ,0] " =
  Return (Array [Number "1"; Number "-2.5e-3"; Number "0"] []).
Proof. reflexivity. Qed.

Example parse_object :
  JSON.parse (String.append "{" (String.append (quoted "title")
               (String.append ": " (String.append (quoted "T\u0041") "}")))) =
  Return (Object [(units "title", Str (units "TA"))]).
Proof. reflexivity. Qed.

Example parse_keywords :
  JSON.parse "[null, true, false]" =
  Return (Array [Null; Boolean true; Boolean false] []).
Proof. reflexivity. Qed.

Example parse_unclosed_object :
  JSON.parse "{" = Throw (SyntaxError "Unexpected token in JSON").
Proof. reflexivity. Qed.

Example parse_empty_text :
  JSON.parse "" = Throw (SyntaxError "Unexpected token in JSON").
Proof. reflexivity. Qed.

Example parse_trailing_comma :
  JSON.parse "[1,]" = Throw (SyntaxError "Unexpected token in JSON").
Proof. reflexivity. Qed.

Example parse_leading_zero :
  JSON.parse "01" =
  Throw (SyntaxError "Unexpected non-whitespace character after JSON").
Proof. reflexivity. Qed.

End JSONExamples.

(** ** Properties of objects *)

Module PropsFacts.

Import JS.

Lemma units_eqb_eq (a b : CodeUnits) : units_eqb a b = true <-> a = b.
Proof.
  revert b; induction a as [|x a IH]; intros [|y b]; simpl;
    try (split; [discriminate | congruence]); [tauto|].
  rewrite andb_true_iff, N.eqb_eq, IH. split.
  - intros [-> ->]. reflexivity.
  - intros [= -> ->]. tauto.
Qed.

Lemma units_eqb_refl (a : CodeUnits) : units_eqb a a = true.
Proof. now apply units_eqb_eq. Qed.

Lemma units_eqb_neq (a b : CodeUnits) : a <> b -> units_eqb a b = false.
Proof.
  intros H. destruct (units_eqb a b) eqn:E; [|reflexivity].
  apply units_eqb_eq in E. contradiction.
Qed.

(** Reading the property that was just written gives the written value. *)
Lemma get_set_same (o : Props) (k : CodeUnits) (v : Value) : get (set o k v) k = v.
Proof.
  induction o as [|[k' v'] o IH]; simpl.
  - now rewrite units_eqb_refl.
  - destruct (units_eqb k' k) eqn:E; simpl.
    + now rewrite units_eqb_refl.
    + now rewrite E.
Qed.

(** Writing a property leaves every other property as it was. *)
Lemma get_set_other (o : Props) (k k0 : CodeUnits) (v : Value) :
  k0 <> k -> get (set o k v) k0 = get o k0.
Proof.
  intros N. induction o as [|[k' v'] o IH]; simpl.
  - rewrite units_eqb_neq; [reflexivity | congruence].
  - destruct (units_eqb k' k) eqn:E; simpl.
    + apply units_eqb_eq in E; subst k'.
      rewrite units_eqb_neq; [reflexivity | congruence].
    + destruct (units_eqb k' k0); [reflexivity | exact IH].
Qed.

(** A second write to a property replaces the first. *)
Lemma set_set_same (o : Props) (k : CodeUnits) (v w : Value) :
  set (set o k v) k w = set o k w.
Proof.
  induction o as [|[k' v'] o IH]; simpl.
  - now rewrite units_eqb_refl.
  - destruct (units_eqb k' k) eqn:E; simpl.
    + now rewrite units_eqb_refl.
    + now rewrite E, IH.
Qed.

(** Writes to two different properties commute once both exist. *)
Lemma set_set_swap (o : Props) (k1 k2 : CodeUnits) (v1 v2 w : Value) :
  k1 <> k2 ->
  set (set (set o k1 v1) k2 v2) k1 w = set (set o k1 w) k2 v2.
Proof.
  intros N. induction o as [|[k' v'] o IH]; simpl.
  - rewrite (units_eqb_neq k1 k2 N). simpl.
    now rewrite units_eqb_refl.
  - destruct (units_eqb k' k1) eqn:E1; simpl.
    + apply units_eqb_eq in E1; subst k'.
      rewrite (units_eqb_neq k1 k2 N). simpl.
      now rewrite units_eqb_refl.
    + destruct (units_eqb k' k2) eqn:E2; simpl.
      * apply units_eqb_eq in E2; subst k'.
        now rewrite E1, set_set_same.
      * now rewrite E1, IH.
Qed.

End PropsFacts.

(** ** Properties of the host's functions *)

Module HostFacts.

Import Studio Panel Spec.

(** [isGreaterThan] decides the strict order of receipt times. *)
Lemma isGreaterThan_later (a b : Rostime.Time) :
  Rostime.isGreaterThan a b = true <-> later a b.
Proof.
  unfold Rostime.isGreaterThan, Rostime.compare, later.
  destruct (Z.eqb_spec (Rostime.sec a - Rostime.sec b) 0) as [E|E];
    rewrite Z.ltb_lt; lia.
Qed.

(** Equal receipt times are not greater. *)
Lemma isGreaterThan_tie (a b : Rostime.Time) :
  a = b -> Rostime.isGreaterThan a b = false.
Proof.
  intros ->. unfold Rostime.isGreaterThan, Rostime.compare.
  rewrite Z.sub_diag. simpl. rewrite Z.sub_diag. reflexivity.
Qed.

Lemma includes_In (array : list string) (x : string) :
  includes array x = true <-> In x array.
Proof.
  unfold includes. rewrite existsb_exists. split.
  - intros (y & Hy & E). apply String.eqb_eq in E. now subst.
  - intros H. exists x. split; [exact H | apply String.eqb_refl].
Qed.

Lemma truthy_nonempty (n : string) : n <> "" -> truthy (Some n) = true.
Proof.
  intros H. simpl. destruct (String.eqb_spec n ""); [contradiction | reflexivity].
Qed.

(** [messages[messages.length - 1]] of a frame that ends with [m]. *)
Lemma last_of_frame {T} (front : list (MessageEvent T)) (m : MessageEvent T) :
  nth_error (front ++ [m]) (List.length (front ++ [m]) - 1) = Some m.
Proof.
  rewrite length_app. simpl.
  replace (List.length front + 1 - 1) with (List.length front) by lia.
  rewrite nth_error_app2 by lia. now rewrite Nat.sub_diag.
Qed.

Lemma frame_not_empty {T} (front : list (MessageEvent T)) (m : MessageEvent T) :
  Nat.eqb (List.length (front ++ [m])) 0 = false.
Proof. rewrite length_app. simpl. apply Nat.eqb_neq. lia. Qed.

End HostFacts.

(** ** The latest-message selector *)

Section Selector.

Import Studio Panel Spec HostFacts.

Variable name : string.

(** *** The panel of [std_msgs/String] messages *)

Variables (front : list (MessageEvent StringMessage.t))
  (last : MessageEvent StringMessage.t) (st : State StringMessage.t).

Hypothesis selected : topicName st = Some name.
Hypothesis frame : messages st = Some (front ++ [last]).

(** What the effect does on a frame that ends with [last]. *)
Lemma string_selector_step :
  StringPanel.latestMessageEffect st =
  if match latestMessage st with
     | None => true
     | Some prev => Rostime.isGreaterThan (receiveTime last) (receiveTime prev)
     end
  then setLatestMessage (Some last) st
  else ret tt st.
Proof.
  unfold StringPanel.latestMessageEffect.
  rewrite selected, frame, frame_not_empty, last_of_frame. reflexivity.
Qed.

Lemma string_selector_first :
  latestMessage st = None -> selection StringPanel.latestMessageEffect st = Some last.
Proof.
  intros H. unfold selection, after. rewrite string_selector_step, H. reflexivity.
Qed.

Lemma string_selector_later (prev : MessageEvent StringMessage.t) :
  latestMessage st = Some prev ->
  later (receiveTime last) (receiveTime prev) ->
  selection StringPanel.latestMessageEffect st = Some last.
Proof.
  intros H L. apply isGreaterThan_later in L.
  unfold selection, after. rewrite string_selector_step, H, L. reflexivity.
Qed.

Lemma string_selector_not_later (prev : MessageEvent StringMessage.t) :
  latestMessage st = Some prev ->
  ~ later (receiveTime last) (receiveTime prev) ->
  selection StringPanel.latestMessageEffect st = Some prev.
Proof.
  intros H L. unfold selection, after. rewrite string_selector_step, H.
  destruct (Rostime.isGreaterThan _ _) eqn:E.
  - apply isGreaterThan_later in E. contradiction.
  - exact H.
Qed.

(** *** The panel of [plotly.Plot] messages *)

Variables (front' : list (MessageEvent PlotlyPlot.t))
  (last' : MessageEvent PlotlyPlot.t) (st' : State PlotlyPlot.t).

Hypothesis selected' : topicName st' = Some name.
Hypothesis frame' : messages st' = Some (front' ++ [last']).

Lemma plot_selector_step :
  PlotlyPanel.latestMessageEffect st' = setLatestMessage (Some last') st'.
Proof.
  unfold PlotlyPanel.latestMessageEffect.
  rewrite selected', frame', frame_not_empty, last_of_frame. reflexivity.
Qed.

(** C1, as amended.  With a topic selected and a frame that ends with a
    message: the std_msgs/String panel replaces the selection with that last
    message when there is no previous selection or when the receipt time of
    the last message is strictly greater than that of the previous selection,
    and keeps the previous selection otherwise, in particular when the two
    receipt times are equal; the plotly.Plot panel replaces the selection with
    the last message of the frame whatever the previous selection is. *)
Theorem selector_policy_of_each_panel :
  (latestMessage st = None ->
   selection StringPanel.latestMessageEffect st = Some last) /\
  (forall prev, latestMessage st = Some prev ->
     later (receiveTime last) (receiveTime prev) ->
     selection StringPanel.latestMessageEffect st = Some last) /\
  (forall prev, latestMessage st = Some prev ->
     ~ later (receiveTime last) (receiveTime prev) ->
     selection StringPanel.latestMessageEffect st = Some prev) /\
  (forall prev, latestMessage st = Some prev ->
     receiveTime last = receiveTime prev ->
     selection StringPanel.latestMessageEffect st = Some prev) /\
  selection PlotlyPanel.latestMessageEffect st' = Some last'.
Proof.
  split; [exact string_selector_first|].
  split; [exact string_selector_later|].
  split; [exact string_selector_not_later|].
  split.
  - intros prev H E. apply string_selector_not_later; [exact H|].
    intros L. apply isGreaterThan_later in L.
    rewrite (isGreaterThan_tie _ _ E) in L. discriminate.
  - unfold selection, after. rewrite plot_selector_step. reflexivity.
Qed.

End Selector.

Section SelectorExamples.

Import Studio Panel Spec Examples.

(** The theorem at two concrete frames: in the std_msgs/String panel a
    message received at second 7 replaces the one received at second 5; in
    the plotly.Plot panel a message received at second 3 replaces it too. *)
Lemma selector_policy_of_each_panel_witness :
  selection StringPanel.latestMessageEffect
    (state (Some "/plot") [string_at_time 7 "[]"] (Some (string_at_time 5 "[1]")))
  = Some (string_at_time 7 "[]") /\
  selection PlotlyPanel.latestMessageEffect
    (state (Some "/plot") [at_time 3 "[]"] (Some (at_time 5 "[1]")))
  = Some (at_time 3 "[]").
Proof.
  destruct (selector_policy_of_each_panel "/plot"
              [] (string_at_time 7 "[]")
              (state (Some "/plot") [string_at_time 7 "[]"] (Some (string_at_time 5 "[1]")))
              eq_refl eq_refl
              [] (at_time 3 "[]")
              (state (Some "/plot") [at_time 3 "[]"] (Some (at_time 5 "[1]")))
              eq_refl eq_refl) as (_ & H & _ & _ & H').
  split.
  - apply (H (string_at_time 5 "[1]") eq_refl). left. simpl. lia.
  - exact H'.
Defined.

(** C1 as stated fails on the plotly.Plot panel: the previous selection was
    received at second 5, the last message of the frame at second 3, which is
    not strictly greater, and the selection is replaced all the same. *)
Lemma plot_selector_replaces_with_older_message :
  let previous := at_time 5 "[1]" in
  let incoming := at_time 3 "[]" in
  let before := state (Some "/plot") [incoming] (Some previous) in
  latestMessage before = Some previous /\
  Rostime.isGreaterThan (receiveTime incoming) (receiveTime previous) = false /\
  ~ later (receiveTime incoming) (receiveTime previous) /\
  selection PlotlyPanel.latestMessageEffect before = Some incoming /\
  Some incoming <> latestMessage before.
Proof.
  cbv zeta. repeat split; try reflexivity.
  - unfold later. simpl. lia.
  - discriminate.
Qed.

End SelectorExamples.

Section NoTopic.

Import Studio Panel Spec Examples.

(** C7.  When no topic is selected, the selector of either panel leaves
    no message selected, whatever the previous selection and the frame. *)
Theorem selector_clears_without_topic
  (st : State StringMessage.t) (st' : State PlotlyPlot.t) :
  topicName st = None ->
  topicName st' = None ->
  selection StringPanel.latestMessageEffect st = None /\
  selection PlotlyPanel.latestMessageEffect st' = None.
Proof.
  intros H H'. unfold selection, after.
  unfold StringPanel.latestMessageEffect, PlotlyPanel.latestMessageEffect.
  rewrite H, H'. split; reflexivity.
Qed.

Lemma selector_clears_without_topic_witness :
  selection StringPanel.latestMessageEffect
    (state None [string_at_time 7 "[]"] (Some (string_at_time 5 "[1]"))) = None /\
  selection PlotlyPanel.latestMessageEffect
    (state None [at_time 7 "[]"] (Some (at_time 5 "[1]"))) = None.
Proof.
  exact (selector_clears_without_topic
           (state None [string_at_time 7 "[]"] (Some (string_at_time 5 "[1]")))
           (state None [at_time 7 "[]"] (Some (at_time 5 "[1]")))
           eq_refl eq_refl).
Defined.

(** The effect writes nothing but the selection, and an empty or absent
    frame leaves the state as it is when a topic is selected. *)
Lemma plot_selector_keeps_on_empty_frame (st : State PlotlyPlot.t) (n : string) :
  topicName st = Some n ->
  messages st = None \/ messages st = Some [] ->
  after PlotlyPanel.latestMessageEffect st = st.
Proof.
  intros H [E|E]; unfold after, PlotlyPanel.latestMessageEffect;
    rewrite H, E; reflexivity.
Qed.

Lemma string_selector_keeps_on_empty_frame (st : State StringMessage.t) (n : string) :
  topicName st = Some n ->
  messages st = None \/ messages st = Some [] ->
  after StringPanel.latestMessageEffect st = st.
Proof.
  intros H [E|E]; unfold after, StringPanel.latestMessageEffect;
    rewrite H, E; reflexivity.
Qed.

(** The effects depend on the selection they write, so each runs again
    after it has written; the second run changes nothing. *)
Lemma plot_selector_stable (st : State PlotlyPlot.t) :
  after PlotlyPanel.latestMessageEffect (after PlotlyPanel.latestMessageEffect st) =
  after PlotlyPanel.latestMessageEffect st.
Proof.
  unfold after, PlotlyPanel.latestMessageEffect.
  destruct (topicName st) eqn:N; simpl; [|now rewrite N].
  destruct (messages st) as [ms|] eqn:M; simpl; [|now rewrite N, M].
  destruct (Nat.eqb (List.length ms) 0) eqn:L; simpl; rewrite N, M, L; reflexivity.
Qed.

Lemma string_selector_stable (st : State StringMessage.t) :
  after StringPanel.latestMessageEffect (after StringPanel.latestMessageEffect st) =
  after StringPanel.latestMessageEffect st.
Proof.
  unfold after, StringPanel.latestMessageEffect.
  destruct (topicName st) eqn:N; simpl; [|now rewrite N].
  destruct (messages st) as [ms|] eqn:M; simpl; [|now rewrite N, M].
  destruct (Nat.eqb (List.length ms) 0) eqn:L; simpl; [now rewrite N, M, L|].
  destruct (nth_error ms (List.length ms - 1)) as [cur|] eqn:C; simpl;
    [|now rewrite N, M, L, C].
  destruct (latestMessage st) as [prev|] eqn:P; simpl.
  - destruct (Rostime.isGreaterThan (receiveTime cur) (receiveTime prev)) eqn:G; simpl.
    + rewrite N, M, L, C. simpl.
      now rewrite (HostFacts.isGreaterThan_tie _ _ eq_refl).
    + now rewrite N, M, L, C, P, G.
  - rewrite N, M, L, C. simpl.
    now rewrite (HostFacts.isGreaterThan_tie _ _ eq_refl).
Qed.

(** The read of [receiveTime] in the std_msgs/String panel never throws. *)
Lemma string_selector_returns (st : State StringMessage.t) :
  fst (StringPanel.latestMessageEffect st) = JS.Return tt.
Proof.
  unfold StringPanel.latestMessageEffect.
  destruct (topicName st); [|reflexivity].
  destruct (messages st) as [ms|]; [|reflexivity].
  destruct (Nat.eqb (List.length ms) 0) eqn:E; [reflexivity|].
  destruct (nth_error ms (List.length ms - 1)) eqn:N.
  - destruct (latestMessage st) as [prev|]; [|reflexivity].
    destruct (Rostime.isGreaterThan _ _); reflexivity.
  - apply nth_error_None in N. apply Nat.eqb_neq in E. lia.
Qed.

End NoTopic.

(** ** The list of valid topic names *)

Section TopicNames.

Import Studio Panel Spec HostFacts Messages Examples.

Variables (topics : list Topic) (n : string).

Hypothesis filled_in : n <> "".

(** C10.  For a topic catalog and a non-empty selected topic name, the list
    of either panel contains the selected name: the list is the
    schema-filtered list of names when that list has the name, and the name
    followed by the schema-filtered list when it has not. *)
Theorem validTopicNames_keeps_selected_topic :
  In n (PlotlyPanel.validTopicNames (Some topics) (Some n)) /\
  In n (StringPanel.validTopicNames (Some topics) (Some n)) /\
  (In n (names_with_schema PlotlyPlotSchemaNames topics) ->
   PlotlyPanel.validTopicNames (Some topics) (Some n) =
   names_with_schema PlotlyPlotSchemaNames topics) /\
  (~ In n (names_with_schema PlotlyPlotSchemaNames topics) ->
   PlotlyPanel.validTopicNames (Some topics) (Some n) =
   n :: names_with_schema PlotlyPlotSchemaNames topics) /\
  (In n (names_with_schema StringPanel.VALID_DATATYPES topics) ->
   StringPanel.validTopicNames (Some topics) (Some n) =
   names_with_schema StringPanel.VALID_DATATYPES topics) /\
  (~ In n (names_with_schema StringPanel.VALID_DATATYPES topics) ->
   StringPanel.validTopicNames (Some topics) (Some n) =
   n :: names_with_schema StringPanel.VALID_DATATYPES topics).
Proof.
  unfold PlotlyPanel.validTopicNames, StringPanel.validTopicNames.
  change (map name (filter (fun t => has PlotlyPlotSchemaNames (schemaName t)) topics))
    with (names_with_schema PlotlyPlotSchemaNames topics).
  change (map name (filter (fun t => has StringPanel.VALID_DATATYPES (schemaName t)) topics))
    with (names_with_schema StringPanel.VALID_DATATYPES topics).
  rewrite (truthy_nonempty n filled_in). simpl andb.
  destruct (includes (names_with_schema PlotlyPlotSchemaNames topics) n) eqn:P;
    destruct (includes (names_with_schema StringPanel.VALID_DATATYPES topics) n) eqn:S;
    simpl negb; cbv iota;
    repeat match goal with
           | H : includes _ _ = true |- _ => apply includes_In in H
           | H : includes ?l ?x = false |- _ =>
               assert (~ In x l)
                 by (intros HI; apply includes_In in HI; congruence);
               clear H
           end;
    repeat split; intros; simpl; tauto.
Qed.

End TopicNames.

Section TopicNamesExamples.

Import Studio Panel Spec Examples.

Lemma validTopicNames_keeps_selected_topic_witness :
  PlotlyPanel.validTopicNames (Some catalog) (Some "/b") = ["/b"; "/a"] /\
  StringPanel.validTopicNames (Some catalog) (Some "/b") = ["/b"] /\
  In "/b" (PlotlyPanel.validTopicNames (Some catalog) (Some "/b")).
Proof.
  assert (filled_in : "/b" <> "") by discriminate.
  destruct (validTopicNames_keeps_selected_topic catalog "/b" filled_in)
    as (H & _ & _ & _ & _ & _).
  split; [reflexivity | split; [reflexivity | exact H]].
Defined.

(** Before the host has delivered a catalog the list is empty. *)
Lemma validTopicNames_without_catalog (n : option string) :
  PlotlyPanel.validTopicNames None n = [] /\
  StringPanel.validTopicNames None n = [].
Proof. split; reflexivity. Qed.

End TopicNamesExamples.

(** ** The translator *)

Section Translator.

Import JS Spec Messages JSONFacts Examples.

Lemma length_of_nonempty (text : string) :
  text <> "" -> Nat.ltb 0 (String.length text) = true.
Proof. destruct text; [congruence | reflexivity]. Qed.

(** The empty text is not JSON, so a text that decodes is not empty. *)
Lemma decodes_nonempty (text : string) (v : Value) :
  decodes text v -> Nat.ltb 0 (String.length text) = true.
Proof. destruct text; [discriminate | reflexivity]. Qed.

(** A text does not both decode and fail. *)
Lemma malformed_not_decodes (text : string) (v : Value) :
  malformed text -> ~ decodes text v.
Proof. intros (_ & e & H) D. unfold decodes in D. congruence. Qed.

(** The translator on a message whose two texts decode. *)
Lemma ParsePlotlyMessage_decoded (message : PlotlyPlot.t) (d l : Value) :
  decodes (PlotlyPlot.data message) d ->
  decodes (PlotlyPlot.layout message) l ->
  ParsePlotlyMessage message =
  if isArray d then Return {| PlotlyPlotParsed.data := d; PlotlyPlotParsed.layout := l |}
  else Throw ValidationError.
Proof.
  intros D L. unfold ParsePlotlyMessage.
  rewrite (decodes_nonempty _ _ D), (decodes_nonempty _ _ L), D, L.
  destruct (isArray d); reflexivity.
Qed.

(** The translator on a message whose layout text is malformed: the
    [SyntaxError] of the layout is thrown before the data is looked at. *)
Lemma ParsePlotlyMessage_layout_malformed (message : PlotlyPlot.t) :
  (PlotlyPlot.data message = "" \/ exists d, decodes (PlotlyPlot.data message) d) ->
  malformed (PlotlyPlot.layout message) ->
  exists e, ParsePlotlyMessage message = Throw e /\ ParseError e.
Proof.
  intros D (N & e & L). exists e. split.
  - unfold ParsePlotlyMessage. rewrite (length_of_nonempty _ N), L.
    destruct D as [-> | (d & D)].
    + reflexivity.
    + now rewrite (decodes_nonempty _ _ D), D.
  - exact (parse_throws_SyntaxError _ _ L).
Qed.

Lemma ParsePlotlyMessage_data_malformed (message : PlotlyPlot.t) :
  malformed (PlotlyPlot.data message) ->
  exists e, ParsePlotlyMessage message = Throw e /\ ParseError e.
Proof.
  intros (N & e & D). exists e. split.
  - unfold ParsePlotlyMessage. now rewrite (length_of_nonempty _ N), D.
  - exact (parse_throws_SyntaxError _ _ D).
Qed.

(** Every text is empty, decodes, or is malformed. *)
Lemma text_cases (text : string) :
  text = "" \/ (exists v, decodes text v) \/ malformed text.
Proof.
  destruct text as [|c text]; [now left | right].
  destruct (JSON.parse (String c text)) as [v|e] eqn:E.
  - left. now exists v.
  - right. split; [discriminate | now exists e].
Qed.

(** C2, as amended.  When the data text decodes to a value that is not an
    array, the translator throws and returns nothing: it throws the
    validation error when the layout text is empty or decodes, and the
    syntax error of the layout text when that text is malformed. *)
Theorem ParsePlotlyMessage_rejects_non_array (message : PlotlyPlot.t) (v : Value) :
  decodes (PlotlyPlot.data message) v ->
  isArray v = false ->
  (exists e, ParsePlotlyMessage message = Throw e) /\
  (PlotlyPlot.layout message = "" \/ (exists l, decodes (PlotlyPlot.layout message) l) ->
   ParsePlotlyMessage message = Throw ValidationError) /\
  (malformed (PlotlyPlot.layout message) ->
   exists e, ParsePlotlyMessage message = Throw e /\ ParseError e).
Proof.
  intros D A.
  assert (V : PlotlyPlot.layout message = "" \/
              (exists l, decodes (PlotlyPlot.layout message) l) ->
              ParsePlotlyMessage message = Throw ValidationError).
  { intros [E | (l & L)].
    - unfold ParsePlotlyMessage.
      rewrite (decodes_nonempty _ _ D), D, E, A. reflexivity.
    - rewrite (ParsePlotlyMessage_decoded _ _ _ D L), A. reflexivity. }
  assert (M : malformed (PlotlyPlot.layout message) ->
              exists e, ParsePlotlyMessage message = Throw e /\ ParseError e).
  { apply ParsePlotlyMessage_layout_malformed. right. now exists v. }
  split; [|split; assumption].
  destruct (text_cases (PlotlyPlot.layout message)) as [E | [L | L]].
  - eexists. apply V. now left.
  - eexists. apply V. now right.
  - destruct (M L) as (e & H & _). now exists e.
Qed.

Lemma ParsePlotlyMessage_rejects_non_array_witness :
  ParsePlotlyMessage {| PlotlyPlot.data := "{}"; PlotlyPlot.layout := "" |}
  = Throw ValidationError.
Proof.
  assert (D : decodes "{}" (Object [])) by reflexivity.
  destruct (ParsePlotlyMessage_rejects_non_array
              {| PlotlyPlot.data := "{}"; PlotlyPlot.layout := "" |}
              (Object []) D eq_refl) as (_ & H & _).
  apply H. left. reflexivity.
Defined.

(** C2 as stated fails: the data text decodes to an object, yet with a
    malformed layout text the translator throws the syntax error, not the
    validation error. *)
Lemma ParsePlotlyMessage_syntax_error_before_validation :
  let message := {| PlotlyPlot.data := "{}"; PlotlyPlot.layout := "{" |} in
  decodes (PlotlyPlot.data message) (Object []) /\
  isArray (Object []) = false /\
  ParsePlotlyMessage message = Throw (SyntaxError "Unexpected token in JSON") /\
  ParsePlotlyMessage message <> Throw ValidationError.
Proof. cbv zeta. repeat split. discriminate. Qed.

(** C3.  When at least one of the two texts is non-empty and not valid
    JSON, the translator throws a syntax error. *)
Theorem ParsePlotlyMessage_throws_on_malformed_text (message : PlotlyPlot.t) :
  malformed (PlotlyPlot.data message) \/ malformed (PlotlyPlot.layout message) ->
  exists e, ParsePlotlyMessage message = Throw e /\ ParseError e.
Proof.
  intros [D | L].
  - now apply ParsePlotlyMessage_data_malformed.
  - destruct (text_cases (PlotlyPlot.data message)) as [E | [E | E]].
    + apply ParsePlotlyMessage_layout_malformed; [now left | exact L].
    + apply ParsePlotlyMessage_layout_malformed; [now right | exact L].
    + now apply ParsePlotlyMessage_data_malformed.
Qed.

Lemma ParsePlotlyMessage_throws_on_malformed_text_witness :
  exists e,
    ParsePlotlyMessage {| PlotlyPlot.data := "{}"; PlotlyPlot.layout := "{" |} = Throw e /\
    ParseError e.
Proof.
  apply (ParsePlotlyMessage_throws_on_malformed_text
           {| PlotlyPlot.data := "{}"; PlotlyPlot.layout := "{" |}).
  right. split; [discriminate|]. eexists. reflexivity.
Defined.

(** C4.  The message of two empty texts translates, without an error, to an
    empty array of series and an empty layout object. *)
Theorem ParsePlotlyMessage_of_empty_texts :
  ParsePlotlyMessage {| PlotlyPlot.data := ""; PlotlyPlot.layout := "" |} =
  Return {| PlotlyPlotParsed.data := Array [] []; PlotlyPlotParsed.layout := Object [] |}.
Proof. reflexivity. Qed.

(** C9.  When the data text decodes to an array and the layout text
    decodes, the translator returns the decoded layout as it is, whatever its
    shape: an array, a string, a number, a boolean or null as much as an
    object. *)
Theorem ParsePlotlyMessage_passes_layout_through
  (message : PlotlyPlot.t) (elements : list Value) (props : Props) (l : Value) :
  decodes (PlotlyPlot.data message) (Array elements props) ->
  decodes (PlotlyPlot.layout message) l ->
  ParsePlotlyMessage message =
  Return {| PlotlyPlotParsed.data := Array elements props;
            PlotlyPlotParsed.layout := l |}.
Proof.
  intros D L. now rewrite (ParsePlotlyMessage_decoded _ _ _ D L).
Qed.

Lemma ParsePlotlyMessage_passes_layout_through_witness :
  ParsePlotlyMessage {| PlotlyPlot.data := "[]"; PlotlyPlot.layout := "5" |} =
  Return {| PlotlyPlotParsed.data := Array [] []; PlotlyPlotParsed.layout := Number "5" |} /\
  ParsePlotlyMessage {| PlotlyPlot.data := "[]"; PlotlyPlot.layout := "null" |} =
  Return {| PlotlyPlotParsed.data := Array [] []; PlotlyPlotParsed.layout := Null |}.
Proof.
  split.
  - apply (ParsePlotlyMessage_passes_layout_through
             {| PlotlyPlot.data := "[]"; PlotlyPlot.layout := "5" |} [] [] (Number "5"));
      reflexivity.
  - apply (ParsePlotlyMessage_passes_layout_through
             {| PlotlyPlot.data := "[]"; PlotlyPlot.layout := "null" |} [] [] Null);
      reflexivity.
Defined.

End Translator.

(** ** The translation step of a render *)

Section TranslationStep.

Import JS Studio Panel Spec Messages JSONFacts Examples.

Local Open Scope string_scope.

(** C8.  The translation step of either panel completes with a value for
    every state, so for every message: no exception leaves it.  In the
    plotly.Plot panel a failure of the translator is written, as a string,
    into the error of the settings field and the step yields no parsed
    message, for which the chart data is the empty array; in the
    std_msgs/String panel a text that is malformed or decodes to a non-array
    is written into the error of the settings field likewise and the step
    yields the empty array.  A success clears the error. *)
Theorem translation_step_catches_every_error
  (st : State PlotlyPlot.t) (st' : State StringMessage.t) :
  (exists pm,
     fst (PlotlyPanel.plotMessage st) = Return pm /\
     match latestMessage st with
     | None => pm = None /\ after PlotlyPanel.plotMessage st = st
     | Some latest =>
         match ParsePlotlyMessage (message latest) with
         | Return parsed =>
             pm = Some parsed /\
             error (PlotlyPanel.topicField (after PlotlyPanel.plotMessage st)) = None
         | Throw e =>
             pm = None /\
             PlotlyPanel.data pm = Array [] [] /\
             error (PlotlyPanel.topicField (after PlotlyPanel.plotMessage st)) =
             Some (String.append "Failed to parse: " (JS.message e))
         end
     end) /\
  (exists v,
     fst (StringPanel.plotData st') = Return v /\
     isArray v = true /\
     match latestMessage st' with
     | None => v = Array [] [] /\ after StringPanel.plotData st' = st'
     | Some latest =>
         match JSON.parse (StringMessage.data (message latest)) with
         | Return json =>
             if isArray json then
               v = json /\
               error (StringPanel.topicField (after StringPanel.plotData st')) = None
             else
               v = Array [] [] /\
               error (StringPanel.topicField (after StringPanel.plotData st')) =
               Some "JSON is not an array"
         | Throw e =>
             v = Array [] [] /\
             error (StringPanel.topicField (after StringPanel.plotData st')) =
             Some (String.append "Failed to parse JSON: " (JS.message e))
         end
     end).
Proof.
  split.
  - unfold after, PlotlyPanel.plotMessage, try_catch, bind, eval, ret, setErrorMessage.
    destruct (latestMessage st) as [latest|]; [|now exists None].
    destruct (ParsePlotlyMessage (message latest)) as [parsed|e].
    + exists (Some parsed). simpl. tauto.
    + exists None. simpl. tauto.
  - unfold after, StringPanel.plotData, try_catch, bind, eval, ret, setErrorMessage.
    destruct (latestMessage st') as [latest|]; [|now exists (Array [] [])].
    destruct (JSON.parse (StringMessage.data (message latest))) as [json|e].
    + destruct (isArray json) eqn:A; simpl.
      * exists json. simpl. tauto.
      * exists (Array [] []). simpl. tauto.
    + exists (Array [] []). simpl. tauto.
Qed.

(** The step on a malformed text and on a text that is not an array. *)
Example plotMessage_on_malformed_text :
  PlotlyPanel.plotMessage (state (Some "/plot") [] (Some (at_time 5 "{"))) =
  (Return None,
   {| colorScheme := light; topics := None; topicName := Some "/plot";
      messages := Some []; latestMessage := Some (at_time 5 "{");
      errorMessage := Some "Failed to parse: Unexpected token in JSON" |}).
Proof. reflexivity. Qed.

Example plotMessage_on_non_array :
  PlotlyPanel.plotMessage (state (Some "/plot") [] (Some (at_time 5 "{}"))) =
  (Return None,
   {| colorScheme := light; topics := None; topicName := Some "/plot";
      messages := Some []; latestMessage := Some (at_time 5 "{}");
      errorMessage := Some "Failed to parse: Plot data must be an array" |}).
Proof. reflexivity. Qed.

Example plotData_on_non_array :
  StringPanel.plotData (state (Some "/plot") [] (Some (string_at_time 5 "{}"))) =
  (Return (Array [] []),
   {| colorScheme := light; topics := None; topicName := Some "/plot";
      messages := Some []; latestMessage := Some (string_at_time 5 "{}");
      errorMessage := Some "JSON is not an array" |}).
Proof. reflexivity. Qed.

End TranslationStep.

(** ** The layout merge *)

Section LayoutMerge.

Import JS Studio Panel Spec Messages PropsFacts Examples.

Variable DARK_TEMPLATE : Props.

Lemma autosize_is_not_template : units "autosize" <> units "template".
Proof. discriminate. Qed.

(** The merge on a layout object: the two properties are written into it. *)
Lemma layout_of_object (colorScheme : ColorScheme) (d : Value) (author : Props) :
  PlotlyPanel.layout DARK_TEMPLATE colorScheme
    (Some {| PlotlyPlotParsed.data := d; PlotlyPlotParsed.layout := Object author |}) =
  Return (Object (set (set author (units "autosize") (Boolean true))
                      (units "template") (template_for DARK_TEMPLATE colorScheme))).
Proof. destruct colorScheme; reflexivity. Qed.

(** The merge when there is no parsed message, or when its layout is null. *)
Lemma layout_of_nothing (colorScheme : ColorScheme) :
  PlotlyPanel.layout DARK_TEMPLATE colorScheme None =
  Return (Object [(units "autosize", Boolean true);
                  (units "template", template_for DARK_TEMPLATE colorScheme)]).
Proof. destruct colorScheme; reflexivity. Qed.

Lemma layout_of_null (colorScheme : ColorScheme) (d : Value) :
  PlotlyPanel.layout DARK_TEMPLATE colorScheme
    (Some {| PlotlyPlotParsed.data := d; PlotlyPlotParsed.layout := Null |}) =
  PlotlyPanel.layout DARK_TEMPLATE colorScheme None.
Proof. reflexivity. Qed.

(** The merge on a layout that is a boolean, a number or a string: the first
    assignment throws. *)
Lemma layout_of_primitive (colorScheme : ColorScheme) (d l : Value) :
  primitive l = true ->
  exists m,
    PlotlyPanel.layout DARK_TEMPLATE colorScheme
      (Some {| PlotlyPlotParsed.data := d; PlotlyPlotParsed.layout := l |}) =
    Throw (TypeError m).
Proof.
  destruct l; try discriminate; intros _; eexists; reflexivity.
Qed.

(** The merge writes into the layout object of the parsed message.  Running
    it again on the object it has written to, for another color scheme, gives
    what it gives on the layout as the author wrote it. *)
Lemma layout_again (c1 c2 : ColorScheme) (d : Value) (author written : Props) :
  PlotlyPanel.layout DARK_TEMPLATE c1
    (Some {| PlotlyPlotParsed.data := d; PlotlyPlotParsed.layout := Object author |}) =
  Return (Object written) ->
  PlotlyPanel.layout DARK_TEMPLATE c2
    (Some {| PlotlyPlotParsed.data := d; PlotlyPlotParsed.layout := Object written |}) =
  PlotlyPanel.layout DARK_TEMPLATE c2
    (Some {| PlotlyPlotParsed.data := d; PlotlyPlotParsed.layout := Object author |}).
Proof.
  rewrite !layout_of_object. intros [= <-].
  rewrite (set_set_swap _ _ _ _ _ _ autosize_is_not_template).
  now rewrite set_set_same.
Qed.

(** C5, as amended.  In light mode the merge of a layout object leaves every
    field other than autosize and template as the author wrote it, sets
    autosize to true and sets template to undefined. *)
Theorem layout_light_keeps_other_fields (d : Value) (author : Props) :
  exists merged,
    PlotlyPanel.layout DARK_TEMPLATE light
      (Some {| PlotlyPlotParsed.data := d; PlotlyPlotParsed.layout := Object author |}) =
    Return (Object merged) /\
    get merged (units "autosize") = Boolean true /\
    get merged (units "template") = Undefined /\
    forall k, k <> units "autosize" -> k <> units "template" ->
              get merged k = get author k.
Proof.
  eexists. split; [apply layout_of_object|]. simpl template_for.
  split; [|split].
  - rewrite get_set_other by exact autosize_is_not_template.
    apply get_set_same.
  - apply get_set_same.
  - intros k A T. now rewrite !get_set_other.
Qed.

(** The merge on any layout that is not a boolean, a number or a string:
    an object, an array, null, or no parsed message at all. *)
Lemma layout_of_settable (colorScheme : ColorScheme) (plotMessage : option PlotlyPlotParsed.t) :
  primitive (author_layout plotMessage) = false ->
  exists merged,
    PlotlyPanel.layout DARK_TEMPLATE colorScheme plotMessage = Return merged /\
    field merged "autosize" = Boolean true /\
    field merged "template" = template_for DARK_TEMPLATE colorScheme.
Proof.
  intros S.
  assert (P : forall (o : Props) (c : ColorScheme),
    get (set (set o (units "autosize") (Boolean true)) (units "template")
           (template_for DARK_TEMPLATE c)) (units "autosize") = Boolean true /\
    get (set (set o (units "autosize") (Boolean true)) (units "template")
           (template_for DARK_TEMPLATE c)) (units "template") =
    template_for DARK_TEMPLATE c).
  { intros o c. split.
    - rewrite get_set_other by exact autosize_is_not_template. apply get_set_same.
    - apply get_set_same. }
  destruct plotMessage as [[d l]|]; [destruct l; try discriminate S|];
    destruct colorScheme; unfold PlotlyPanel.layout; simpl nullish; simpl assign;
    (eexists; split; [reflexivity|]); unfold field;
    first [ split; reflexivity
          | apply (P _ light)
          | apply (P _ dark) ].
Qed.

(** X25.  For every layout that is an object (an array included), null or
    absent, and every color scheme, the merged layout has autosize true, and
    its template is defined exactly in dark mode, where it is the dark
    template; so has the layout of the std_msgs/String panel, which takes no
    layout from the message. *)
Theorem layout_autosize_and_template
  (colorScheme : ColorScheme) (plotMessage : option PlotlyPlotParsed.t) :
  primitive (author_layout plotMessage) = false ->
  (exists merged,
     PlotlyPanel.layout DARK_TEMPLATE colorScheme plotMessage = Return merged /\
     field merged "autosize" = Boolean true /\
     (field merged "template" <> Undefined <-> colorScheme = dark) /\
     (colorScheme = dark -> field merged "template" = Object DARK_TEMPLATE)) /\
  field (StringPanel.plotLayout DARK_TEMPLATE colorScheme) "autosize" = Boolean true /\
  (field (StringPanel.plotLayout DARK_TEMPLATE colorScheme) "template" <> Undefined <->
   colorScheme = dark) /\
  (colorScheme = dark ->
   field (StringPanel.plotLayout DARK_TEMPLATE colorScheme) "template" =
   Object DARK_TEMPLATE).
Proof.
  intros S. split.
  - destruct (layout_of_settable colorScheme plotMessage S) as (merged & E & A & T).
    exists merged. rewrite T. split; [exact E|]. split; [exact A|].
    destruct colorScheme; simpl; repeat split; congruence.
  - destruct colorScheme; simpl; repeat split; congruence.
Qed.

End LayoutMerge.

Section LayoutMergeExamples.

Import JS Studio Panel Spec Messages Examples.

(** C5 as stated fails: the author of the layout wrote a template, the
    translator returns it, and the merge in light mode replaces it with
    undefined. *)
Lemma layout_light_drops_author_template :
  let author := Object [(units "template", Object [])] in
  let parsed := {| PlotlyPlotParsed.data := Array [] [];
                   PlotlyPlotParsed.layout := author |} in
  ParsePlotlyMessage templated = Return parsed /\
  field author "template" = Object [] /\
  PlotlyPanel.layout [] light (Some parsed) =
  Return (Object [(units "template", Undefined); (units "autosize", Boolean true)]) /\
  field (Object [(units "template", Undefined); (units "autosize", Boolean true)])
    "template" <> field author "template".
Proof. cbv zeta. repeat split. discriminate. Qed.

Lemma layout_autosize_and_template_witness :
  exists merged,
    PlotlyPanel.layout [(units "layout", Object [])] dark
      (Some {| PlotlyPlotParsed.data := Array [] [];
               PlotlyPlotParsed.layout := Object [(units "title", Str (units "T"))] |}) =
    Return merged /\
    field merged "autosize" = Boolean true /\
    field merged "template" = Object [(units "layout", Object [])].
Proof.
  destruct (layout_autosize_and_template [(units "layout", Object [])] dark
              (Some {| PlotlyPlotParsed.data := Array [] [];
                       PlotlyPlotParsed.layout :=
                         Object [(units "title", Str (units "T"))] |})
              eq_refl) as ((merged & E & A & _ & T) & _).
  exists merged. split; [exact E|]. split; [exact A|]. exact (T eq_refl).
Defined.

(** C6.  The code at the failing input.  The layout text [5] is valid
    JSON and the translator returns the number as the layout, without the
    check it makes on the data; the layout memo then assigns autosize on that
    number, the assignment throws a type error outside the step that catches
    the errors of the message, and no layout with autosize true results.  The
    memo is written to override autosize on the layout of every message, and
    the parsed message is documented to hold a layout object. *)
Lemma layout_of_number_has_no_autosize :
  let message := {| PlotlyPlot.data := "[]"; PlotlyPlot.layout := "5" |} in
  let parsed := {| PlotlyPlotParsed.data := Array [] [];
                   PlotlyPlotParsed.layout := Number "5" |} in
  ParsePlotlyMessage message = Return parsed /\
  PlotlyPanel.layout [] light (Some parsed) =
  Throw (TypeError "Cannot create a property on a primitive value, setting autosize") /\
  ~ exists merged,
      PlotlyPanel.layout [] light (Some parsed) = Return merged /\
      field merged "autosize" = Boolean true.
Proof.
  cbv zeta. split; [reflexivity|]. split; [reflexivity|].
  intros (merged & E & _). discriminate E.
Qed.

(** The two end-to-end cases of the specification. *)
Example end_to_end_light :
  PlotlyPanel.layout [] light
    (Some {| PlotlyPlotParsed.data := Array [] []; PlotlyPlotParsed.layout := Object [] |}) =
  Return (Object [(units "autosize", Boolean true); (units "template", Undefined)]).
Proof. reflexivity. Qed.

Example end_to_end_dark (DARK_TEMPLATE : Props) :
  PlotlyPanel.layout DARK_TEMPLATE dark
    (Some {| PlotlyPlotParsed.data := Array [] [];
             PlotlyPlotParsed.layout := Object [(units "title", Str (units "T"))] |}) =
  Return (Object [(units "title", Str (units "T"));
                  (units "autosize", Boolean true);
                  (units "template", Object DARK_TEMPLATE)]).
Proof. reflexivity. Qed.

End LayoutMergeExamples.

(** ** The list of valid topic names and the subscriptions, further *)

Section TopicList.

Import JS Studio Panel Spec HostFacts Messages Lifecycle.

Lemma truthy_Some (n : string) : truthy (Some n) = true <-> n <> "".
Proof.
  simpl. destruct (String.eqb_spec n ""); simpl; split; congruence.
Qed.

(** Membership in a schema-filtered list of names. *)
Lemma In_names_with_schema (schemas : list string) (topics : list Topic) (x : string) :
  In x (names_with_schema schemas topics) <->
  exists t, In t topics /\ has schemas (schemaName t) = true /\ name t = x.
Proof.
  unfold names_with_schema. rewrite in_map_iff. split.
  - intros (t & E & I). apply filter_In in I. exists t. tauto.
  - intros (t & I & H & E). exists t. split; [exact E|].
    apply filter_In. tauto.
Qed.

(** The two shapes of the list of either panel. *)
Lemma plot_validTopicNames_shape (topics : list Topic) (topicName : option string) :
  PlotlyPanel.validTopicNames (Some topics) topicName =
  match topicName with
  | Some n =>
      if truthy (Some n) && negb (includes (names_with_schema PlotlyPlotSchemaNames topics) n)
      then n :: names_with_schema PlotlyPlotSchemaNames topics
      else names_with_schema PlotlyPlotSchemaNames topics
  | None => names_with_schema PlotlyPlotSchemaNames topics
  end.
Proof. destruct topicName; reflexivity. Qed.

Lemma string_validTopicNames_shape (topics : list Topic) (topicName : option string) :
  StringPanel.validTopicNames (Some topics) topicName =
  match topicName with
  | Some n =>
      if truthy (Some n) && negb (includes (names_with_schema StringPanel.VALID_DATATYPES topics) n)
      then n :: names_with_schema StringPanel.VALID_DATATYPES topics
      else names_with_schema StringPanel.VALID_DATATYPES topics
  | None => names_with_schema StringPanel.VALID_DATATYPES topics
  end.
Proof. destruct topicName; reflexivity. Qed.

(** A list that is the filtered list, with the selected name put in front
    when that name is not empty and not in the filtered list. *)
Lemma In_forced (filtered : list string) (topicName : option string) (x : string) :
  In x match topicName with
       | Some n =>
           if truthy (Some n) && negb (includes filtered n) then n :: filtered
           else filtered
       | None => filtered
       end <->
  In x filtered \/ (topicName = Some x /\ x <> "").
Proof.
  destruct topicName as [n|];
    [|split; [tauto | intros [H | [E _]]; [exact H | discriminate E]]].
  destruct (truthy (Some n)) eqn:Tr; destruct (includes filtered n) eqn:I; simpl.
  - apply includes_In in I. split; [tauto|].
    intros [H | [[= ->] _]]; assumption.
  - apply truthy_Some in Tr. split.
    + intros [<- | H]; [right | left]; tauto.
    + intros [H | [[= ->] _]]; tauto.
  - assert (E : n = "")
      by (simpl in Tr; destruct (String.eqb_spec n ""); [assumption | discriminate Tr]).
    split; [tauto|]. intros [H | [[= ->] N]]; [exact H | contradiction].
  - assert (E : n = "")
      by (simpl in Tr; destruct (String.eqb_spec n ""); [assumption | discriminate Tr]).
    split; [tauto|]. intros [H | [[= ->] N]]; [exact H | contradiction].
Qed.

Lemma NoDup_forced (filtered : list string) (topicName : option string) :
  NoDup filtered ->
  NoDup match topicName with
        | Some n =>
            if truthy (Some n) && negb (includes filtered n) then n :: filtered
            else filtered
        | None => filtered
        end.
Proof.
  intros H. destruct topicName as [n|]; [|exact H].
  destruct (truthy (Some n)); simpl; [|exact H].
  destruct (includes filtered n) eqn:I; simpl; [exact H|].
  constructor; [|exact H].
  intros C. apply includes_In in C. congruence.
Qed.

(** X1.  What the list of valid topic names holds, in either panel: the
    names of the topics of the catalog whose schema the panel recognizes, and
    the selected name when it is not empty; nothing else. *)
Theorem validTopicNames_membership
  (topics : list Topic) (topicName : option string) (x : string) :
  (In x (PlotlyPanel.validTopicNames (Some topics) topicName) <->
   (exists t, In t topics /\ has PlotlyPlotSchemaNames (schemaName t) = true /\
              name t = x) \/
   (topicName = Some x /\ x <> "")) /\
  (In x (StringPanel.validTopicNames (Some topics) topicName) <->
   (exists t, In t topics /\ has StringPanel.VALID_DATATYPES (schemaName t) = true /\
              name t = x) \/
   (topicName = Some x /\ x <> "")).
Proof.
  rewrite plot_validTopicNames_shape, string_validTopicNames_shape.
  rewrite !In_forced, !In_names_with_schema. tauto.
Qed.

(** X2.  Forcing the selected name into the list never duplicates a name:
    when the names of the recognized topics are distinct, so are the names of
    the list. *)
Theorem validTopicNames_NoDup (topics : list Topic) (topicName : option string) :
  (NoDup (names_with_schema PlotlyPlotSchemaNames topics) ->
   NoDup (PlotlyPanel.validTopicNames (Some topics) topicName)) /\
  (NoDup (names_with_schema StringPanel.VALID_DATATYPES topics) ->
   NoDup (StringPanel.validTopicNames (Some topics) topicName)).
Proof.
  rewrite plot_validTopicNames_shape, string_validTopicNames_shape.
  split; apply NoDup_forced.
Qed.

Lemma find_by_name (topics : list Topic) (n : string) :
  (exists t, find (fun t => String.eqb (name t) n) topics = Some t) <->
  In n (map name topics).
Proof.
  rewrite in_map_iff. split.
  - intros (t & F). apply find_some in F as (I & E).
    apply String.eqb_eq in E. now exists t.
  - intros (t & E & I).
    destruct (find (fun t => String.eqb (name t) n) topics) as [t'|] eqn:F.
    + now exists t'.
    + apply (find_none _ _ F) in I. rewrite E, String.eqb_refl in I. discriminate.
Qed.

Lemma In_subscriptions
  (topicName : option string) (topics : option (list Topic)) (x : string) :
  In x (subscriptions topicName topics) <->
  topicName = Some x /\ x <> "" /\
  exists ts, topics = Some ts /\ In x (map name ts).
Proof.
  unfold subscriptions.
  destruct topicName as [n|]; [|split; [contradiction | intros (E & _); discriminate E]].
  destruct (truthy (Some n)) eqn:Tr; simpl andb.
  - apply truthy_Some in Tr.
    destruct topics as [ts|].
    + destruct (find (fun t => String.eqb (name t) n) ts) as [t|] eqn:F.
      * assert (I : In n (map name ts)) by (apply find_by_name; now exists t).
        simpl. split.
        -- intros [<- | []]. split; [reflexivity|]. split; [exact Tr|]. now exists ts.
        -- intros ([= ->] & _). now left.
      * split; [contradiction|].
        intros ([= ->] & _ & ts' & [= <-] & I).
        apply find_by_name in I as (t & F'). congruence.
    + split; [contradiction|].
      intros (_ & _ & ts & E & _). discriminate E.
  - split; [contradiction|].
    intros ([= ->] & N & _). apply truthy_Some in N. congruence.
Qed.

(** X3.  The panel subscribes to the selected topic when its name is not
    empty and the catalog has a topic of that name, whatever the schema of
    that topic, and to nothing otherwise; so to one topic at most. *)
Theorem subscriptions_membership
  (topicName : option string) (topics : option (list Topic)) (x : string) :
  (In x (subscriptions topicName topics) <->
   topicName = Some x /\ x <> "" /\
   exists ts, topics = Some ts /\ In x (map name ts)) /\
  List.length (subscriptions topicName topics) <= 1.
Proof.
  split; [apply In_subscriptions|].
  unfold subscriptions. destruct topicName as [n|]; [|simpl; lia].
  destruct (_ && _); simpl; lia.
Qed.

(** X4.  Every topic the panel subscribes to is in its list of valid topic
    names, in either panel. *)
Theorem subscriptions_are_valid_topic_names
  (topicName : option string) (topics : list Topic) (x : string) :
  In x (subscriptions topicName (Some topics)) ->
  In x (PlotlyPanel.validTopicNames (Some topics) topicName) /\
  In x (StringPanel.validTopicNames (Some topics) topicName).
Proof.
  intros H. apply In_subscriptions in H. destruct H as (E & N & _).
  rewrite plot_validTopicNames_shape, string_validTopicNames_shape, !In_forced.
  split; right; split; assumption.
Qed.

End TopicList.

Section TopicListExamples.

Import Studio Panel Lifecycle Examples.

Lemma subscriptions_are_valid_topic_names_witness :
  In "/b" (subscriptions (Some "/b") (Some catalog)) /\
  In "/b" (PlotlyPanel.validTopicNames (Some catalog) (Some "/b")).
Proof.
  assert (H : In "/b" (subscriptions (Some "/b") (Some catalog))) by (now left).
  split; [exact H|].
  exact (proj1 (subscriptions_are_valid_topic_names (Some "/b") catalog "/b" H)).
Defined.

End TopicListExamples.

(** ** The saved state and the settings action handler *)

Section SavedState.

Import JS Studio Panel Spec Lifecycle.

(** The text of the code units of a text is that text. *)
Lemma text_units (s : string) : text (units s) = s.
Proof.
  unfold text, units. rewrite map_map.
  rewrite (map_ext _ (fun a => a)) by (intros a; apply ascii_N_embedding).
  rewrite map_id. apply string_of_list_ascii_of_string.
Qed.

Lemma getInitialTopic_savedState (topicName : option string) :
  getInitialTopic (savedState topicName) = topicName.
Proof.
  destruct topicName as [n|]; [|reflexivity].
  unfold getInitialTopic, savedState. simpl. now rewrite text_units.
Qed.

(** X5.  A panel that is mounted with the state it saved starts with the
    topic that was selected when it saved, in light mode, with no catalog, no
    frame, no selected message and no error. *)
Theorem saved_topic_is_restored (T : Type) (st : State T) :
  @initialPanelState T (savedState (topicName st)) =
  {| colorScheme := light; topics := None; topicName := topicName st;
     messages := None; latestMessage := None; errorMessage := None |}.
Proof.
  unfold initialPanelState. now rewrite getInitialTopic_savedState.
Qed.

Lemma actionHandler_step {T} (a : SettingsTreeAction.t) (st : State T) :
  actionHandler a st =
  if String.eqb (SettingsTreeAction.action a) "update" &&
     String.eqb (String.concat "." (SettingsTreeAction.path a)) "data.topic"
  then setTopicName
         match SettingsTreeAction.value a with
         | Str u => Some (text u)
         | _ => None
         end st
  else (Return tt, st).
Proof.
  unfold actionHandler.
  destruct (String.eqb (SettingsTreeAction.action a) "update"); simpl; [|reflexivity].
  destruct (String.eqb _ "data.topic"); reflexivity.
Qed.

(** X6.  The action handler writes the selected topic and nothing else, and
    it writes only for an update whose path, joined with dots, is
    [data.topic]: every other action leaves the state as it is. *)
Theorem actionHandler_only_sets_topic
  (T : Type) (a : SettingsTreeAction.t) (st : State T) :
  fst (actionHandler a st) = Return tt /\
  colorScheme (after (actionHandler a) st) = colorScheme st /\
  topics (after (actionHandler a) st) = topics st /\
  messages (after (actionHandler a) st) = messages st /\
  latestMessage (after (actionHandler a) st) = latestMessage st /\
  errorMessage (after (actionHandler a) st) = errorMessage st /\
  (SettingsTreeAction.action a <> "update" \/
   String.concat "." (SettingsTreeAction.path a) <> "data.topic" ->
   after (actionHandler a) st = st).
Proof.
  unfold after. rewrite actionHandler_step.
  destruct (String.eqb_spec (SettingsTreeAction.action a) "update") as [A|A];
    destruct (String.eqb_spec (String.concat "." (SettingsTreeAction.path a)) "data.topic")
      as [P|P]; simpl; repeat split; try reflexivity; intros [H|H]; contradiction.
Qed.

(** X7.  An update of [data.topic] selects the text of a string value and
    deselects the topic for a value of any other type; once the topic is
    deselected the selector of either panel clears the selected message. *)
Theorem actionHandler_update_topic
  (a : SettingsTreeAction.t) (st : State PlotlyPlot.t) (st' : State StringMessage.t) :
  SettingsTreeAction.action a = "update" ->
  String.concat "." (SettingsTreeAction.path a) = "data.topic" ->
  (forall n, SettingsTreeAction.value a = Str (units n) ->
     topicName (after (actionHandler a) st) = Some n /\
     topicName (after (actionHandler a) st') = Some n) /\
  ((forall u, SettingsTreeAction.value a <> Str u) ->
     topicName (after (actionHandler a) st) = None /\
     topicName (after (actionHandler a) st') = None /\
     selection PlotlyPanel.latestMessageEffect (after (actionHandler a) st) = None /\
     selection StringPanel.latestMessageEffect (after (actionHandler a) st') = None).
Proof.
  intros A P. unfold selection, after. rewrite !actionHandler_step, A, P. simpl.
  split.
  - intros n ->. simpl. now rewrite text_units.
  - intros N.
    destruct (SettingsTreeAction.value a) as [| | | |u| |] eqn:V;
      try (repeat split; reflexivity).
    now destruct (N u).
Qed.

End SavedState.

Section SavedStateExamples.

Import JS Studio Panel Spec Lifecycle Examples.

Lemma actionHandler_update_topic_witness :
  topicName
    (after (actionHandler
              {| SettingsTreeAction.action := "update";
                 SettingsTreeAction.path := ["data"; "topic"];
                 SettingsTreeAction.value := Str (units "/a") |})
       (state (Some "/plot") [at_time 7 "[]"] (Some (at_time 5 "[1]")))) = Some "/a" /\
  selection PlotlyPanel.latestMessageEffect
    (after (actionHandler
              {| SettingsTreeAction.action := "update";
                 SettingsTreeAction.path := ["data"; "topic"];
                 SettingsTreeAction.value := Undefined |})
       (state (Some "/plot") [at_time 7 "[]"] (Some (at_time 5 "[1]")))) = None.
Proof.
  split.
  - destruct (actionHandler_update_topic
                {| SettingsTreeAction.action := "update";
                   SettingsTreeAction.path := ["data"; "topic"];
                   SettingsTreeAction.value := Str (units "/a") |}
                (state (Some "/plot") [at_time 7 "[]"] (Some (at_time 5 "[1]")))
                (state (Some "/plot") [string_at_time 7 "[]"] None)
                eq_refl eq_refl) as (H & _).
    exact (proj1 (H "/a" eq_refl)).
  - destruct (actionHandler_update_topic
                {| SettingsTreeAction.action := "update";
                   SettingsTreeAction.path := ["data"; "topic"];
                   SettingsTreeAction.value := Undefined |}
                (state (Some "/plot") [at_time 7 "[]"] (Some (at_time 5 "[1]")))
                (state (Some "/plot") [string_at_time 7 "[]"] None)
                eq_refl eq_refl) as (_ & H).
    assert (N : forall u, Undefined <> Str u) by (intros u; discriminate).
    exact (proj1 (proj2 (proj2 (H N)))).
Defined.

End SavedStateExamples.

(** ** The translator, further *)

Section TranslatorMore.

Import JS Studio Panel Spec Messages JSONFacts Lifecycle.

(** X8.  The translator returns exactly when the data text is empty or
    decodes to an array and the layout text is empty or decodes; what it
    returns is then the decoded array, or the empty array for an empty text,
    and the decoded layout, or the empty object for an empty text. *)
Theorem ParsePlotlyMessage_returns_iff (message : PlotlyPlot.t) (p : PlotlyPlotParsed.t) :
  ParsePlotlyMessage message = Return p <->
  ((PlotlyPlot.data message = "" /\ PlotlyPlotParsed.data p = Array [] []) \/
   (exists elements props,
      decodes (PlotlyPlot.data message) (Array elements props) /\
      PlotlyPlotParsed.data p = Array elements props)) /\
  ((PlotlyPlot.layout message = "" /\ PlotlyPlotParsed.layout p = Object []) \/
   decodes (PlotlyPlot.layout message) (PlotlyPlotParsed.layout p)).
Proof.
  unfold ParsePlotlyMessage, decodes. destruct p as [pd pl]. simpl.
  split.
  - destruct (PlotlyPlot.data message) as [|c d] eqn:D; simpl Nat.ltb; cbv iota.
    + destruct (PlotlyPlot.layout message) as [|c' l] eqn:L; simpl Nat.ltb; cbv iota.
      * simpl. intros [= <- <-]. split; left; split; reflexivity.
      * destruct (JSON.parse (String c' l)) as [v|e]; [|discriminate].
        simpl. intros [= <- <-]. split; [left | right]; auto.
    + destruct (JSON.parse (String c d)) as [v|e]; [|discriminate].
      destruct (PlotlyPlot.layout message) as [|c' l] eqn:L; simpl Nat.ltb; cbv iota.
      * destruct v; simpl; try discriminate.
        intros [= <- <-]. split; [right | left]; eauto.
      * destruct (JSON.parse (String c' l)) as [v'|e]; [|discriminate].
        destruct v; simpl; try discriminate.
        intros [= <- <-]. split; right; eauto.
  - intros ([(D & ->) | (es & ps & D & ->)] & [(L & ->) | L]).
    + rewrite D, L. reflexivity.
    + rewrite D, (decodes_nonempty _ _ L), L. reflexivity.
    + rewrite L, (decodes_nonempty _ _ D), D. reflexivity.
    + rewrite (decodes_nonempty _ _ D), D, (decodes_nonempty _ _ L), L. reflexivity.
Qed.

(** X9.  The exception of the translator is that of the first step that
    fails: the syntax error of the data text; else the syntax error of the
    layout text, also when the data is not an array; else the validation
    error. *)
Theorem ParsePlotlyMessage_throws_first_failure (message : PlotlyPlot.t) (e : Exception) :
  ParsePlotlyMessage message = Throw e ->
  (PlotlyPlot.data message <> "" /\ JSON.parse (PlotlyPlot.data message) = Throw e) \/
  ((PlotlyPlot.data message = "" \/ exists d, decodes (PlotlyPlot.data message) d) /\
   PlotlyPlot.layout message <> "" /\ JSON.parse (PlotlyPlot.layout message) = Throw e) \/
  ((exists d, decodes (PlotlyPlot.data message) d /\ isArray d = false) /\
   (PlotlyPlot.layout message = "" \/ exists l, decodes (PlotlyPlot.layout message) l) /\
   e = ValidationError).
Proof.
  unfold ParsePlotlyMessage, decodes.
  destruct (PlotlyPlot.data message) as [|c d] eqn:D;
    cbn [Nat.ltb Nat.leb String.length]; cbv beta iota.
  - destruct (PlotlyPlot.layout message) as [|c' l] eqn:L;
      cbn [Nat.ltb Nat.leb String.length]; cbv beta iota.
    + simpl. discriminate.
    + destruct (JSON.parse (String c' l)) as [v|e'] eqn:P; cbv beta iota.
      * simpl. discriminate.
      * intros [= <-]. right. left. repeat split; auto. discriminate.
  - destruct (JSON.parse (String c d)) as [v|e'] eqn:P; cbv beta iota.
    + destruct (PlotlyPlot.layout message) as [|c' l] eqn:L;
        cbn [Nat.ltb Nat.leb String.length]; cbv beta iota.
      * destruct (isArray v) eqn:A; cbn [negb]; cbv beta iota; [discriminate|].
        intros [= <-]. right. right. repeat split; eauto.
      * destruct (JSON.parse (String c' l)) as [v'|e''] eqn:P'; cbv beta iota.
        -- destruct (isArray v) eqn:A; cbn [negb]; cbv beta iota; [discriminate|].
           intros [= <-]. right. right. repeat split; eauto.
        -- intros [= <-]. right. left. repeat split; eauto. discriminate.
    + intros [= <-]. left. split; [discriminate | reflexivity].
Qed.

Lemma skip_ws_blank (s : list ascii) :
  forallb JSON.is_ws s = true -> JSON.skip_ws s = [].
Proof.
  induction s as [|c s IH]; simpl; [reflexivity|].
  destruct (JSON.is_ws c); simpl; [exact IH | discriminate].
Qed.

(** A text of whitespace only is not JSON. *)
Lemma parse_blank (t : string) :
  blank t = true -> exists e, JSON.parse t = Throw e.
Proof.
  intros B. unfold JSON.parse, JSON.fuel_for.
  replace (2 * List.length (list_ascii_of_string t) + 1)
    with (S (2 * List.length (list_ascii_of_string t))) by lia.
  rewrite parse_value_S, (skip_ws_blank _ B). eauto.
Qed.

(** X10.  Only the text of no character at all counts as empty: a field
    that holds whitespace and nothing else is parsed, and the translator
    throws a syntax error for it. *)
Theorem ParsePlotlyMessage_blank_field_is_not_empty (message : PlotlyPlot.t) :
  (PlotlyPlot.data message <> "" /\ blank (PlotlyPlot.data message) = true) \/
  (PlotlyPlot.layout message <> "" /\ blank (PlotlyPlot.layout message) = true) ->
  exists e, ParsePlotlyMessage message = Throw e /\ ParseError e.
Proof.
  intros [(N & B) | (N & B)].
  - apply ParsePlotlyMessage_data_malformed. split; [exact N | now apply parse_blank].
  - assert (M : malformed (PlotlyPlot.layout message))
      by (split; [exact N | now apply parse_blank]).
    destruct (text_cases (PlotlyPlot.data message)) as [E | [E | E]].
    + apply ParsePlotlyMessage_layout_malformed; [now left | exact M].
    + apply ParsePlotlyMessage_layout_malformed; [now right | exact M].
    + now apply ParsePlotlyMessage_data_malformed.
Qed.

Lemma ParsePlotlyMessage_data_isArray (message : PlotlyPlot.t) (p : PlotlyPlotParsed.t) :
  ParsePlotlyMessage message = Return p -> isArray (PlotlyPlotParsed.data p) = true.
Proof.
  unfold ParsePlotlyMessage.
  destruct (if Nat.ltb 0 _ then _ else _) as [d|]; [|discriminate].
  destruct (if Nat.ltb 0 _ then _ else _) as [l|]; [|discriminate].
  destruct (isArray d) eqn:A; simpl; [|discriminate].
  intros [= <-]. exact A.
Qed.

(** X11.  The chart data the plotly.Plot panel hands to the widget is an
    array in every state: the array of the message when the translator
    returned, the empty array otherwise. *)
Theorem plot_chart_data_is_an_array (st : State PlotlyPlot.t) :
  exists pm,
    fst (PlotlyPanel.plotMessage st) = Return pm /\
    isArray (PlotlyPanel.data pm) = true /\
    (forall latest p,
        latestMessage st = Some latest ->
        ParsePlotlyMessage (message latest) = Return p ->
        PlotlyPanel.data pm = PlotlyPlotParsed.data p) /\
    ((latestMessage st = None \/
      exists latest e,
        latestMessage st = Some latest /\
        ParsePlotlyMessage (message latest) = Throw e) ->
     PlotlyPanel.data pm = Array [] []).
Proof.
  unfold PlotlyPanel.plotMessage, try_catch, bind, eval, ret, setErrorMessage.
  destruct (latestMessage st) as [latest|].
  - destruct (ParsePlotlyMessage (message latest)) as [p|e] eqn:P.
    + exists (Some p). simpl.
      pose proof (ParsePlotlyMessage_data_isArray _ _ P) as A.
      destruct (PlotlyPlotParsed.data p) eqn:D; try discriminate A.
      repeat split.
      * intros latest' p' [= <-] E. rewrite P in E. injection E as <-. now rewrite D.
      * intros [E | (latest' & e & [= <-] & E)]; [discriminate E|].
        rewrite P in E. discriminate E.
    + exists None. simpl. repeat split.
      intros latest' p' [= <-] E. rewrite P in E. discriminate E.
  - exists None. simpl. repeat split. intros latest p E. discriminate E.
Qed.

End TranslatorMore.

(** ** The selector, further *)

Section SelectorMore.

Import JS Studio Panel Spec HostFacts Lifecycle.

Lemma later_irreflexive (a : Rostime.Time) : ~ later a a.
Proof. unfold later. lia. Qed.

Lemma later_asymmetric (a b : Rostime.Time) : later a b -> ~ later b a.
Proof. unfold later. lia. Qed.

(** X12.  The selector of either panel completes without an exception and
    writes no state variable but the selected message. *)
Theorem selector_writes_only_the_selection
  (st : State PlotlyPlot.t) (st' : State StringMessage.t) :
  (fst (PlotlyPanel.latestMessageEffect st) = Return tt /\
   colorScheme (after PlotlyPanel.latestMessageEffect st) = colorScheme st /\
   topics (after PlotlyPanel.latestMessageEffect st) = topics st /\
   topicName (after PlotlyPanel.latestMessageEffect st) = topicName st /\
   messages (after PlotlyPanel.latestMessageEffect st) = messages st /\
   errorMessage (after PlotlyPanel.latestMessageEffect st) = errorMessage st) /\
  (fst (StringPanel.latestMessageEffect st') = Return tt /\
   colorScheme (after StringPanel.latestMessageEffect st') = colorScheme st' /\
   topics (after StringPanel.latestMessageEffect st') = topics st' /\
   topicName (after StringPanel.latestMessageEffect st') = topicName st' /\
   messages (after StringPanel.latestMessageEffect st') = messages st' /\
   errorMessage (after StringPanel.latestMessageEffect st') = errorMessage st').
Proof.
  split.
  - unfold after, PlotlyPanel.latestMessageEffect.
    destruct (topicName st) eqn:N; [|simpl; repeat split; auto].
    destruct (messages st) as [ms|] eqn:M; [|simpl; repeat split; auto].
    destruct (Nat.eqb (List.length ms) 0); simpl; repeat split; auto.
  - unfold after, StringPanel.latestMessageEffect.
    destruct (topicName st') eqn:N; [|simpl; repeat split; auto].
    destruct (messages st') as [ms|] eqn:M; [|simpl; repeat split; auto].
    destruct (Nat.eqb (List.length ms) 0) eqn:E; [simpl; repeat split; auto|].
    destruct (nth_error ms (List.length ms - 1)) eqn:C.
    + destruct (latestMessage st') as [prev|]; [|simpl; repeat split; auto].
      destruct (Rostime.isGreaterThan _ _); simpl; repeat split; auto.
    + apply nth_error_None in C. apply Nat.eqb_neq in E. lia.
Qed.

(** X13.  Of a frame only the last message counts: the selector of either
    panel selects on a frame what it selects on the frame of the last message
    alone. *)
Theorem selector_reads_only_the_last_message
  (st : State PlotlyPlot.t) (front : list (MessageEvent PlotlyPlot.t))
  (m : MessageEvent PlotlyPlot.t)
  (st' : State StringMessage.t) (front' : list (MessageEvent StringMessage.t))
  (m' : MessageEvent StringMessage.t) :
  messages st = Some (front ++ [m]) ->
  messages st' = Some (front' ++ [m']) ->
  selection PlotlyPanel.latestMessageEffect st =
  selection PlotlyPanel.latestMessageEffect (after (setMessages (Some [m])) st) /\
  selection StringPanel.latestMessageEffect st' =
  selection StringPanel.latestMessageEffect (after (setMessages (Some [m'])) st').
Proof.
  intros F F'. unfold selection, after. split.
  - unfold PlotlyPanel.latestMessageEffect. simpl. rewrite F.
    rewrite frame_not_empty, last_of_frame.
    destruct (topicName st); reflexivity.
  - unfold StringPanel.latestMessageEffect. simpl. rewrite F'.
    rewrite frame_not_empty, last_of_frame.
    destruct (topicName st'); [|reflexivity].
    destruct (latestMessage st') as [prev|] eqn:P; [|reflexivity].
    destruct (Rostime.isGreaterThan _ _); simpl; [reflexivity | now rewrite P].
Qed.

(** X14.  In the std_msgs/String panel the receipt time of the selected
    message never decreases: the selector never replaces a selected message
    by one that was received before it. *)
Theorem string_selection_never_goes_back
  (st : State StringMessage.t) (prev next : MessageEvent StringMessage.t) :
  latestMessage st = Some prev ->
  selection StringPanel.latestMessageEffect st = Some next ->
  ~ later (receiveTime prev) (receiveTime next).
Proof.
  intros P. unfold selection, after, StringPanel.latestMessageEffect.
  destruct (topicName st); [|discriminate].
  destruct (messages st) as [ms|];
    [|simpl; rewrite P; intros [= <-]; apply later_irreflexive].
  destruct (Nat.eqb (List.length ms) 0);
    [simpl; rewrite P; intros [= <-]; apply later_irreflexive|].
  destruct (nth_error ms (List.length ms - 1)) as [cur|];
    [|simpl; rewrite P; intros [= <-]; apply later_irreflexive].
  rewrite P.
  destruct (Rostime.isGreaterThan (receiveTime cur) (receiveTime prev)) eqn:G; simpl.
  - intros [= <-]. apply later_asymmetric. now apply isGreaterThan_later.
  - rewrite P. intros [= <-]. apply later_irreflexive.
Qed.

(** X15.  The selector of either panel is idempotent: run again on the
    state it left, with the same frame, it leaves that state as it is. *)
Theorem selector_is_idempotent
  (st : State PlotlyPlot.t) (st' : State StringMessage.t) :
  after PlotlyPanel.latestMessageEffect (after PlotlyPanel.latestMessageEffect st) =
  after PlotlyPanel.latestMessageEffect st /\
  after StringPanel.latestMessageEffect (after StringPanel.latestMessageEffect st') =
  after StringPanel.latestMessageEffect st'.
Proof.
  split; [apply plot_selector_stable | apply string_selector_stable].
Qed.

End SelectorMore.

Section SelectorMoreExamples.

Import JS Studio Panel Spec Lifecycle Examples.

Lemma selector_reads_only_the_last_message_witness :
  selection PlotlyPanel.latestMessageEffect
    (state (Some "/plot") [at_time 6 "[2]"; at_time 7 "[]"] (Some (at_time 5 "[1]"))) =
  selection PlotlyPanel.latestMessageEffect
    (after (setMessages (Some [at_time 7 "[]"]))
       (state (Some "/plot") [at_time 6 "[2]"; at_time 7 "[]"] (Some (at_time 5 "[1]")))).
Proof.
  exact (proj1 (selector_reads_only_the_last_message
                  (state (Some "/plot") [at_time 6 "[2]"; at_time 7 "[]"]
                     (Some (at_time 5 "[1]")))
                  [at_time 6 "[2]"] (at_time 7 "[]")
                  (state (Some "/plot") [string_at_time 7 "[]"] None)
                  [] (string_at_time 7 "[]") eq_refl eq_refl)).
Defined.

Lemma string_selection_never_goes_back_witness :
  ~ later (receiveTime (string_at_time 5 "[1]")) (receiveTime (string_at_time 5 "[1]")).
Proof.
  exact (string_selection_never_goes_back
           (state (Some "/plot") [string_at_time 3 "[]"] (Some (string_at_time 5 "[1]")))
           (string_at_time 5 "[1]") (string_at_time 5 "[1]") eq_refl eq_refl).
Defined.

End SelectorMoreExamples.

(** ** A frame, from the render handler to the chart *)

Section Frame.

Import JS Studio Panel Spec HostFacts Messages Lifecycle.

(** What the render handler leaves. *)
Lemma onRender_state {T} (rs : RenderState.t T) (st : State T) :
  after (onRender rs) st =
  {| colorScheme :=
       match RenderState.colorScheme rs with
       | Some c => c
       | None => light
       end;
     topics := RenderState.topics rs;
     topicName := topicName st;
     messages := RenderState.currentFrame rs;
     latestMessage := latestMessage st;
     errorMessage := errorMessage st |}.
Proof. reflexivity. Qed.

(** X16.  In the plotly.Plot panel, with a topic selected, the last message
    of a frame drives the chart whatever was selected or reported before:
    when the translator returns for it, the chart is its parsed message and
    the error is cleared; when the translator throws, there is no parsed
    message and the error is the text of the exception. *)
Theorem plot_frame_supersedes
  (rs : RenderState.t PlotlyPlot.t) (st : State PlotlyPlot.t) (n : string)
  (front : list (MessageEvent PlotlyPlot.t)) (m : MessageEvent PlotlyPlot.t) :
  topicName st = Some n ->
  RenderState.currentFrame rs = Some (front ++ [m]) ->
  let selected := after PlotlyPanel.latestMessageEffect (after (onRender rs) st) in
  latestMessage selected = Some m /\
  (forall p, ParsePlotlyMessage (message m) = Return p ->
     fst (PlotlyPanel.plotMessage selected) = Return (Some p) /\
     errorMessage (after PlotlyPanel.plotMessage selected) = None) /\
  (forall e, ParsePlotlyMessage (message m) = Throw e ->
     fst (PlotlyPanel.plotMessage selected) = Return None /\
     errorMessage (after PlotlyPanel.plotMessage selected) =
     Some (String.append "Failed to parse: " (JS.message e))).
Proof.
  intros N F selected.
  assert (S : latestMessage selected = Some m).
  { unfold selected. rewrite onRender_state.
    unfold after, PlotlyPanel.latestMessageEffect. simpl.
    rewrite N, F, frame_not_empty, last_of_frame. reflexivity. }
  split; [exact S|].
  unfold after, PlotlyPanel.plotMessage, try_catch, bind, eval, ret, setErrorMessage.
  rewrite S.
  split; intros x E; rewrite E; simpl; split; reflexivity.
Qed.

(** X17.  In the std_msgs/String panel, a frame whose last message was not
    received after the selected one changes neither the chart data nor the
    error. *)
Theorem string_frame_without_news
  (rs : RenderState.t StringMessage.t) (st : State StringMessage.t) (n : string)
  (front : list (MessageEvent StringMessage.t)) (m prev : MessageEvent StringMessage.t) :
  topicName st = Some n ->
  RenderState.currentFrame rs = Some (front ++ [m]) ->
  latestMessage st = Some prev ->
  ~ later (receiveTime m) (receiveTime prev) ->
  let selected := after StringPanel.latestMessageEffect (after (onRender rs) st) in
  latestMessage selected = Some prev /\
  fst (StringPanel.plotData selected) = fst (StringPanel.plotData st) /\
  errorMessage (after StringPanel.plotData selected) =
  errorMessage (after StringPanel.plotData st).
Proof.
  intros N F P L selected.
  assert (G : Rostime.isGreaterThan (receiveTime m) (receiveTime prev) = false).
  { destruct (Rostime.isGreaterThan _ _) eqn:G; [|reflexivity].
    apply isGreaterThan_later in G. contradiction. }
  assert (S : latestMessage selected = Some prev).
  { unfold selected. rewrite onRender_state.
    unfold after, StringPanel.latestMessageEffect. simpl.
    rewrite N, F, frame_not_empty, last_of_frame, P, G. reflexivity. }
  split; [exact S|].
  unfold after, StringPanel.plotData, try_catch, bind, eval, ret, setErrorMessage.
  rewrite S, P.
  destruct (JSON.parse (StringMessage.data (message prev))) as [json|e].
  - destruct (isArray json); simpl; split; reflexivity.
  - simpl. split; reflexivity.
Qed.

(** X18.  With no topic selected a frame empties the chart of either panel
    and leaves the error as it was: an error that was reported stays
    reported. *)
Theorem frame_without_topic_keeps_the_error
  (rs : RenderState.t PlotlyPlot.t) (st : State PlotlyPlot.t)
  (rs' : RenderState.t StringMessage.t) (st' : State StringMessage.t) :
  topicName st = None ->
  topicName st' = None ->
  let selected := after PlotlyPanel.latestMessageEffect (after (onRender rs) st) in
  let selected' := after StringPanel.latestMessageEffect (after (onRender rs') st') in
  (fst (PlotlyPanel.plotMessage selected) = Return None /\
   PlotlyPanel.data None = Array [] [] /\
   errorMessage (after PlotlyPanel.plotMessage selected) = errorMessage st) /\
  (fst (StringPanel.plotData selected') = Return (Array [] []) /\
   errorMessage (after StringPanel.plotData selected') = errorMessage st').
Proof.
  intros N N' selected selected'. unfold selected, selected'.
  rewrite !onRender_state.
  unfold after, PlotlyPanel.latestMessageEffect, StringPanel.latestMessageEffect.
  simpl. rewrite N, N'. simpl. repeat split.
Qed.

(** X19.  The two panels draw the same data from the same text.  For a
    plotly.Plot message whose layout text is empty or decodes and a
    std_msgs/String message with the same data text, the chart data of the
    two panels are equal; they report an error for the same texts, but for
    the empty text, which only the std_msgs/String panel reports. *)
Theorem panels_agree_on_data
  (st : State PlotlyPlot.t) (latest : MessageEvent PlotlyPlot.t)
  (st' : State StringMessage.t) (latest' : MessageEvent StringMessage.t) :
  latestMessage st = Some latest ->
  latestMessage st' = Some latest' ->
  PlotlyPlot.data (message latest) = StringMessage.data (message latest') ->
  (PlotlyPlot.layout (message latest) = "" \/
   exists l, decodes (PlotlyPlot.layout (message latest)) l) ->
  exists pm v,
    fst (PlotlyPanel.plotMessage st) = Return pm /\
    fst (StringPanel.plotData st') = Return v /\
    PlotlyPanel.data pm = v /\
    (StringMessage.data (message latest') <> "" ->
     (errorMessage (after PlotlyPanel.plotMessage st) = None <->
      errorMessage (after StringPanel.plotData st') = None)) /\
    (StringMessage.data (message latest') = "" ->
     errorMessage (after PlotlyPanel.plotMessage st) = None /\
     errorMessage (after StringPanel.plotData st') <> None).
Proof.
  intros S S' D L.
  unfold after, PlotlyPanel.plotMessage, StringPanel.plotData,
    try_catch, bind, eval, ret, setErrorMessage.
  rewrite S, S'. unfold ParsePlotlyMessage. rewrite D.
  assert (LV : exists l,
             (if Nat.ltb 0 (String.length (PlotlyPlot.layout (message latest)))
              then JSON.parse (PlotlyPlot.layout (message latest))
              else Return (Object [])) = Return l).
  { destruct L as [-> | (l & L)]; [now exists (Object [])|].
    exists l. unfold decodes in L.
    destruct (PlotlyPlot.layout (message latest)); [discriminate L | exact L]. }
  destruct LV as (l & ->).
  destruct (StringMessage.data (message latest')) as [|c t] eqn:T;
    cbn [Nat.ltb Nat.leb String.length]; cbv beta iota.
  - simpl. do 2 eexists.
    repeat split; try reflexivity; try congruence; try discriminate.
  - destruct (JSON.parse (String c t)) as [json|e]; cbv beta iota.
    + destruct json; simpl; do 2 eexists;
        (repeat split; try reflexivity; try congruence; try discriminate).
    + simpl. do 2 eexists.
      repeat split; try reflexivity; try congruence; try discriminate.
Qed.

End Frame.

(** ** The layout merge, further *)

Section LayoutMore.

Import JS Studio Panel Spec Messages PropsFacts Lifecycle.

Variable DARK_TEMPLATE : Props.

(** X20.  Without a layout of the author the plotly.Plot panel hands the
    widget the layout of the std_msgs/String panel: when there is no parsed
    message, and when the layout text of the message is empty. *)
Theorem layout_without_author_layout (colorScheme : ColorScheme) :
  PlotlyPanel.layout DARK_TEMPLATE colorScheme None =
  Return (StringPanel.plotLayout DARK_TEMPLATE colorScheme) /\
  forall message p,
    PlotlyPlot.layout message = "" ->
    ParsePlotlyMessage message = Return p ->
    PlotlyPanel.layout DARK_TEMPLATE colorScheme (Some p) =
    Return (StringPanel.plotLayout DARK_TEMPLATE colorScheme).
Proof.
  split; [destruct colorScheme; reflexivity|].
  intros message p L. unfold ParsePlotlyMessage. rewrite L.
  destruct (if Nat.ltb 0 _ then _ else _) as [d|]; [|discriminate].
  cbn [Nat.ltb Nat.leb String.length]; cbv beta iota.
  destruct (isArray d); simpl; [|discriminate].
  intros [= <-]. destruct colorScheme; reflexivity.
Qed.

(** X21.  A layout text that decodes to a boolean, a number or a string
    passes the translation step of the plotly.Plot panel, which clears the
    error, and then makes the layout merge throw a type error, in either
    color scheme: that exception is thrown outside the step that catches
    the errors of the message. *)
Theorem primitive_layout_passes_translation_and_breaks_merge
  (st : State PlotlyPlot.t) (latest : MessageEvent PlotlyPlot.t)
  (elements : list Value) (props : Props) (l : Value) (colorScheme : ColorScheme) :
  latestMessage st = Some latest ->
  decodes (PlotlyPlot.data (message latest)) (Array elements props) ->
  decodes (PlotlyPlot.layout (message latest)) l ->
  primitive l = true ->
  exists p m,
    fst (PlotlyPanel.plotMessage st) = Return (Some p) /\
    errorMessage (after PlotlyPanel.plotMessage st) = None /\
    PlotlyPanel.layout DARK_TEMPLATE colorScheme (Some p) = Throw (TypeError m).
Proof.
  intros S D L P.
  exists {| PlotlyPlotParsed.data := Array elements props; PlotlyPlotParsed.layout := l |}.
  assert (E : ParsePlotlyMessage (message latest) =
              Return {| PlotlyPlotParsed.data := Array elements props;
                        PlotlyPlotParsed.layout := l |}).
  { unfold ParsePlotlyMessage, decodes in *.
    destruct (PlotlyPlot.data (message latest)); [discriminate D|].
    destruct (PlotlyPlot.layout (message latest)); [discriminate L|].
    cbn [Nat.ltb Nat.leb String.length]. now rewrite D, L. }
  destruct l; try discriminate P; eexists;
    (split; [|split; [|reflexivity]]);
    unfold after, PlotlyPanel.plotMessage, try_catch, bind, eval, ret, setErrorMessage;
    rewrite S, E; reflexivity.
Qed.

End LayoutMore.

Section LayoutMoreExamples.

Import JS Studio Panel Spec Messages Lifecycle Examples.

Lemma primitive_layout_passes_translation_and_breaks_merge_witness :
  exists p m,
    fst (PlotlyPanel.plotMessage
           (state (Some "/plot") []
              (Some {| topic := "/plot";
                       receiveTime := {| Rostime.sec := 5; Rostime.nsec := 0 |};
                       message := {| PlotlyPlot.data := "[]";
                                     PlotlyPlot.layout := "true" |} |}))) =
    Return (Some p) /\
    errorMessage
      (after PlotlyPanel.plotMessage
         (state (Some "/plot") []
            (Some {| topic := "/plot";
                     receiveTime := {| Rostime.sec := 5; Rostime.nsec := 0 |};
                     message := {| PlotlyPlot.data := "[]";
                                   PlotlyPlot.layout := "true" |} |}))) = None /\
    PlotlyPanel.layout [] dark (Some p) = Throw (TypeError m).
Proof.
  exact (primitive_layout_passes_translation_and_breaks_merge []
           (state (Some "/plot") []
              (Some {| topic := "/plot";
                       receiveTime := {| Rostime.sec := 5; Rostime.nsec := 0 |};
                       message := {| PlotlyPlot.data := "[]";
                                     PlotlyPlot.layout := "true" |} |}))
           {| topic := "/plot";
              receiveTime := {| Rostime.sec := 5; Rostime.nsec := 0 |};
              message := {| PlotlyPlot.data := "[]"; PlotlyPlot.layout := "true" |} |}
           [] [] (Boolean true) dark eq_refl eq_refl eq_refl eq_refl).
Defined.

End LayoutMoreExamples.

Section FrameExamples.

Import JS Studio Panel Spec Messages Lifecycle Examples.

Lemma ParsePlotlyMessage_throws_first_failure_witness :
  (exists d, decodes "{}" d /\ isArray d = false) /\
  Error "Plot data must be an array" = ValidationError.
Proof.
  destruct (ParsePlotlyMessage_throws_first_failure
              {| PlotlyPlot.data := "{}"; PlotlyPlot.layout := "" |}
              (Error "Plot data must be an array") eq_refl)
    as [(_ & H) | [(_ & H & _) | (H & _ & E)]].
  - discriminate H.
  - now contradiction H.
  - split; [exact H | exact E].
Defined.

Lemma ParsePlotlyMessage_blank_field_is_not_empty_witness :
  exists e,
    ParsePlotlyMessage {| PlotlyPlot.data := " "; PlotlyPlot.layout := "" |} = Throw e /\
    ParseError e.
Proof.
  apply (ParsePlotlyMessage_blank_field_is_not_empty
           {| PlotlyPlot.data := " "; PlotlyPlot.layout := "" |}).
  left. split; [discriminate | reflexivity].
Defined.

Lemma plot_frame_supersedes_witness :
  latestMessage
    (after PlotlyPanel.latestMessageEffect
       (after (onRender {| RenderState.colorScheme := Some dark;
                           RenderState.topics := Some catalog;
                           RenderState.currentFrame := Some [at_time 3 "[]"] |})
          (state (Some "/a") [] (Some (at_time 5 "{"))))) =
  Some (at_time 3 "[]").
Proof.
  exact (proj1 (plot_frame_supersedes
                  {| RenderState.colorScheme := Some dark;
                     RenderState.topics := Some catalog;
                     RenderState.currentFrame := Some [at_time 3 "[]"] |}
                  (state (Some "/a") [] (Some (at_time 5 "{")))
                  "/a" [] (at_time 3 "[]") eq_refl eq_refl)).
Defined.

Lemma string_frame_without_news_witness :
  latestMessage
    (after StringPanel.latestMessageEffect
       (after (onRender {| RenderState.colorScheme := None;
                           RenderState.topics := Some catalog;
                           RenderState.currentFrame := Some [string_at_time 3 "[]"] |})
          (state (Some "/b") [] (Some (string_at_time 5 "[1]"))))) =
  Some (string_at_time 5 "[1]").
Proof.
  assert (L : ~ later (receiveTime (string_at_time 3 "[]"))
                (receiveTime (string_at_time 5 "[1]")))
    by (unfold later; simpl; lia).
  exact (proj1 (string_frame_without_news
                  {| RenderState.colorScheme := None;
                     RenderState.topics := Some catalog;
                     RenderState.currentFrame := Some [string_at_time 3 "[]"] |}
                  (state (Some "/b") [] (Some (string_at_time 5 "[1]")))
                  "/b" [] (string_at_time 3 "[]") (string_at_time 5 "[1]")
                  eq_refl eq_refl eq_refl L)).
Defined.

Lemma frame_without_topic_keeps_the_error_witness :
  fst (PlotlyPanel.plotMessage
         (after PlotlyPanel.latestMessageEffect
            (after (onRender {| RenderState.colorScheme := None;
                                RenderState.topics := Some catalog;
                                RenderState.currentFrame := Some [at_time 7 "[]"] |})
               (state None [] (Some (at_time 5 "{")))))) = Return None.
Proof.
  exact (proj1 (proj1 (frame_without_topic_keeps_the_error
                  {| RenderState.colorScheme := None;
                     RenderState.topics := Some catalog;
                     RenderState.currentFrame := Some [at_time 7 "[]"] |}
                  (state None [] (Some (at_time 5 "{")))
                  {| RenderState.colorScheme := None;
                     RenderState.topics := Some catalog;
                     RenderState.currentFrame := Some [string_at_time 7 "[]"] |}
                  (state None [] (Some (string_at_time 5 "{")))
                  eq_refl eq_refl))).
Defined.

Lemma panels_agree_on_data_witness :
  exists pm v,
    fst (PlotlyPanel.plotMessage (state (Some "/a") [] (Some (at_time 5 "[1]")))) =
    Return pm /\
    fst (StringPanel.plotData (state (Some "/b") [] (Some (string_at_time 5 "[1]")))) =
    Return v /\
    PlotlyPanel.data pm = v.
Proof.
  destruct (panels_agree_on_data
              (state (Some "/a") [] (Some (at_time 5 "[1]"))) (at_time 5 "[1]")
              (state (Some "/b") [] (Some (string_at_time 5 "[1]")))
              (string_at_time 5 "[1]")
              eq_refl eq_refl eq_refl (or_introl eq_refl))
    as (pm & v & H1 & H2 & H3 & _).
  exists pm, v. split; [exact H1|]. split; [exact H2 | exact H3].
Defined.

End FrameExamples.

(** ** Mounting, the color scheme and repeated merges *)

Section Mounting.

Import JS Studio Panel Spec Messages PropsFacts Lifecycle.

Variable DARK_TEMPLATE : Props.

(** X22.  The merge can be repeated: it writes into the layout object of
    the parsed message, and run again on the object it wrote to, for any
    color scheme, it returns what it returns on the layout as the author
    wrote it.  So a change of color scheme leaves nothing of the previous
    one. *)
Theorem layout_merge_can_be_repeated
  (c1 c2 : ColorScheme) (d : Value) (author : Props) :
  exists written,
    PlotlyPanel.layout DARK_TEMPLATE c1
      (Some {| PlotlyPlotParsed.data := d; PlotlyPlotParsed.layout := Object author |}) =
    Return (Object written) /\
    PlotlyPanel.layout DARK_TEMPLATE c2
      (Some {| PlotlyPlotParsed.data := d; PlotlyPlotParsed.layout := Object written |}) =
    PlotlyPanel.layout DARK_TEMPLATE c2
      (Some {| PlotlyPlotParsed.data := d; PlotlyPlotParsed.layout := Object author |}).
Proof.
  eexists. split; [apply layout_of_object|].
  apply (layout_again DARK_TEMPLATE c1 c2). apply layout_of_object.
Qed.

(** X23.  A render state that carries no color scheme is rendered in light
    mode: after the render handler the layout of either panel has no
    template, for every layout on which properties can be set. *)
Theorem no_color_scheme_means_light
  (rs : RenderState.t PlotlyPlot.t) (st : State PlotlyPlot.t)
  (rs' : RenderState.t StringMessage.t) (st' : State StringMessage.t)
  (plotMessage : option PlotlyPlotParsed.t) :
  RenderState.colorScheme rs = None ->
  RenderState.colorScheme rs' = None ->
  primitive (author_layout plotMessage) = false ->
  (exists merged,
     PlotlyPanel.layout DARK_TEMPLATE (colorScheme (after (onRender rs) st)) plotMessage =
     Return merged /\
     field merged "autosize" = Boolean true /\
     field merged "template" = Undefined) /\
  field (StringPanel.plotLayout DARK_TEMPLATE (colorScheme (after (onRender rs') st')))
    "template" = Undefined.
Proof.
  intros C C' P. unfold after, onRender, bind, setColorScheme, setTopics, setMessages.
  simpl. rewrite C, C'. split; [|reflexivity].
  destruct (layout_of_settable DARK_TEMPLATE light plotMessage P) as (merged & E & A & T).
  exists merged. split; [exact E|]. split; [exact A | exact T].
Qed.

(** X24.  A panel that has just been mounted, whatever its initial state
    is, lists no topic, subscribes to nothing, selects no message, and shows
    the empty chart without an error. *)
Theorem mounted_panel_is_empty (initialState : Value) :
  let st := @initialPanelState PlotlyPlot.t initialState in
  let st' := @initialPanelState StringMessage.t initialState in
  (PlotlyPanel.validTopicNames (topics st) (topicName st) = [] /\
   subscriptions (topicName st) (topics st) = [] /\
   selection PlotlyPanel.latestMessageEffect st = None /\
   fst (PlotlyPanel.plotMessage st) = Return None /\
   PlotlyPanel.data None = Array [] [] /\
   errorMessage (after PlotlyPanel.plotMessage st) = None) /\
  (StringPanel.validTopicNames (topics st') (topicName st') = [] /\
   subscriptions (topicName st') (topics st') = [] /\
   selection StringPanel.latestMessageEffect st' = None /\
   fst (StringPanel.plotData st') = Return (Array [] []) /\
   errorMessage (after StringPanel.plotData st') = None).
Proof.
  cbv zeta. unfold initialPanelState, selection, after,
    PlotlyPanel.latestMessageEffect, StringPanel.latestMessageEffect, subscriptions.
  simpl. destruct (getInitialTopic initialState) as [n|]; simpl.
  - rewrite andb_false_r. repeat split.
  - repeat split.
Qed.

End Mounting.

Section MountingExamples.

Import JS Studio Panel Spec Messages Lifecycle Examples.

Lemma no_color_scheme_means_light_witness :
  field (StringPanel.plotLayout [(units "layout", Object [])]
           (colorScheme
              (after (onRender {| RenderState.colorScheme := None;
                                  RenderState.topics := None;
                                  RenderState.currentFrame := None |})
                 (state (Some "/b") [] (Some (string_at_time 5 "[1]"))))))
    "template" = Undefined.
Proof.
  exact (proj2 (no_color_scheme_means_light [(units "layout", Object [])]
                  {| RenderState.colorScheme := None;
                     RenderState.topics := None;
                     RenderState.currentFrame := None |}
                  (state (Some "/a") [] (Some (at_time 5 "[1]")))
                  {| RenderState.colorScheme := None;
                     RenderState.topics := None;
                     RenderState.currentFrame := None |}
                  (state (Some "/b") [] (Some (string_at_time 5 "[1]")))
                  None eq_refl eq_refl eq_refl)).
Defined.

End MountingExamples.
